(** * gntools.definitions: name resolution and relation lookups

    A shallow embedding of [gntools/definitions.py] (Python 2.7): the
    [DefinitionTable] lookup with its table and field name facades, the
    [Relation] record and the [RelationTable] loader.

    Conventions of the embedding:
    - a database cell or an optional Python string is a [value]:
      [None] is Python's [None] (SQL NULL), [Some s] a text;
    - Python byte strings are [string]s; [upper], [lower] and [strip]
      follow [str.upper], [str.lower] and [str.strip] on ASCII;
    - an exception is a [Raise e] result; I/O performed by a constructor
      is recorded in a log of [io_event]s that is threaded through it;
    - the constants of [gntools.common.const] and [gntools.common.i18n]
      and the collaborators of the [gpf] package are parameters. *)

From Stdlib Require Import String Ascii List Bool Arith Lia.
From stdpp Require Import base option list gmap strings fin_maps.

Local Open Scope string_scope.
Local Open Scope list_scope.

(** ** Python values and strings *)

(** An optional text: a cell of a table row, or an argument that may be [None]. *)
Definition value : Type := option string.

(** Python truthiness of an optional text: [None] and [''] are false. *)
Definition truthy (v : value) : bool :=
  match v with
  | None => false
  | Some s => negb (String.eqb s "")
  end.

(** [x or y] on optional texts. *)
Definition py_or (x y : value) : value := if truthy x then x else y.

Definition upper_char (c : ascii) : ascii :=
  let n := nat_of_ascii c in
  if ((97 <=? n) && (n <=? 122))%nat then ascii_of_nat (n - 32) else c.

Definition lower_char (c : ascii) : ascii :=
  let n := nat_of_ascii c in
  if ((65 <=? n) && (n <=? 90))%nat then ascii_of_nat (n + 32) else c.

Fixpoint map_chars (f : ascii -> ascii) (s : string) : string :=
  match s with
  | EmptyString => EmptyString
  | String c r => String (f c) (map_chars f r)
  end.

(** [str.upper] and [str.lower]. *)
Definition upper (s : string) : string := map_chars upper_char s.
Definition lower (s : string) : string := map_chars lower_char s.

(** The characters [str.strip()] removes: space, \t, \n, \v, \f, \r. *)
Definition isspace (c : ascii) : bool :=
  let n := nat_of_ascii c in
  ((n =? 32) || ((9 <=? n) && (n <=? 13)))%nat.

Fixpoint lstrip (s : string) : string :=
  match s with
  | EmptyString => EmptyString
  | String c r => if isspace c then lstrip r else s
  end.

Definition rstrip (s : string) : string := String.rev (lstrip (String.rev s)).

(** [str.strip]. *)
Definition strip (s : string) : string := rstrip (lstrip s).

(** [repr] of a plain text without quotes or escapes, as in ['{!r}'.format(name)]. *)
Definition repr (s : string) : string := "'" +:+ s +:+ "'".

(** ['{}'.format(v)] for an optional text. *)
Definition str_of_value (v : value) : string :=
  match v with
  | None => "None"
  | Some s => s
  end.

(** ** Exceptions and results *)

Inductive exception : Type :=
  | ValueError (msg : string)
  | RuntimeError (msg : string)
  | TypeError (msg : string)
  | IndexError (msg : string).

Inductive result (A : Type) : Type :=
  | Ok (a : A)
  | Raise (e : exception).

Arguments Ok {A} a.
Arguments Raise {A} e.

Definition is_ValueError {A} (r : result A) : Prop :=
  match r with
  | Raise (ValueError _) => True
  | _ => False
  end.

Definition is_Ok {A} (r : result A) : Prop :=
  match r with
  | Ok _ => True
  | Raise _ => False
  end.

(** [gpf.common.validate.pass_if(expression, exc_type, exc_val)]. *)
Definition pass_if (expression : bool) (exc_type : string -> exception)
    (exc_val : string) : result unit :=
  if expression then Ok tt else Raise (exc_type exc_val).

(** ** I/O performed by the constructors *)

Inductive io_event : Type :=
  | MakePath (name : string)
  | ReadTable (table_path : string) (key_field : string) (fields : list string).

(** A computation that may raise and that appends to the I/O log. *)
Definition IO (A : Type) : Type := list io_event -> result A * list io_event.

Definition io_ret {A} (a : A) : IO A := fun log => (Ok a, log).

Definition io_raise {A} (e : exception) : IO A := fun log => (Raise e, log).

Definition io_bind {A B} (m : IO A) (k : A -> IO B) : IO B :=
  fun log =>
    match m log with
    | (Ok a, log') => k a log'
    | (Raise e, log') => (Raise e, log')
    end.

Definition io_lift {A} (r : result A) : IO A := fun log => (r, log).

Definition io_emit (ev : io_event) : IO unit := fun log => (Ok tt, log ++ [ev]).

(** [try: m except RuntimeError as e: raise RuntimeError(wrap e)]. *)
Definition io_except_RuntimeError {A} (m : IO A) (wrap : string -> string) : IO A :=
  fun log =>
    match m log with
    | (Raise (RuntimeError e), log') => (Raise (RuntimeError (wrap e)), log')
    | r => r
    end.

Notation "'do' x <- m ; k" := (io_bind m (fun x => k))
  (at level 10, x name, m at level 100, k at level 200, only parsing).

(** ** Constants and collaborators *)

(** The constants of [gntools.common.const] and [gntools.common.i18n]
    that the module reads. [GNTABLE_SOLUTION_DEF] is a template with one
    placeholder, kept as the texts before and after it. *)
Record Const : Type := {
  GNTABLE_SOLUTION_DEF : string * string;
  GNTABLE_RELATION_DEF : string;
  GNFIELD_NAME : string;
  GNFIELD_VALUE : string;
  GNMEDIA_ELECTRIC : string;
  TEXT_OR : string;
  GNFIELD_DESC_CUSTOM : string;
  GNFIELD_DESC_DE : string;
  GNFIELD_DESC_EN : string;
  GNFIELD_DESC_FR : string;
  GNFIELD_DESC_IT : string;
  GN_LANG_CUSTOM : string;
  GN_LANG_DE : string;
  GN_LANG_EN : string;
  GN_LANG_FR : string;
  GN_LANG_IT : string;
  GNRELTYPE_AGGREGRATE : string;
  GNRELTYPE_COMPOSITE : string;
  GNRELTYPE_DATALINK : string;
  GNRELTYPE_ENTITY : string;
  GNRELTYPE_LABEL : string;
  GNRELTYPE_PLAN : string;
  GNRELTYPE_RELATE : string;
  GNRELTYPE_SHAPEGROUP : string;
  GNFIELD_REL_TABLE_SRC : string;
  GNFIELD_REL_TABLE_DST : string;
  GNFIELD_REL_TABLE_REL : string;
  GNFIELD_REL_KEYFIELD_SRC : string;
  GNFIELD_REL_KEYFIELD_DST : string;
  GNFIELD_REL_RELFIELD_SRC : string;
  GNFIELD_REL_RELFIELD_DST : string;
  GNFIELD_REL_TYPE : string
}.

(** ['pre{}post'.format(x)]. *)
Definition format1 (template : string * string) (x : string) : string :=
  fst template +:+ x +:+ snd template.

(** [gpf.paths.Workspace]: only [make_path] is used. *)
Record Workspace : Type := {
  make_path : string -> string
}.

(** A row of a table as the cursor sees it: column name to cell. *)
Definition table_row : Type := string -> value.

(** The [gpf] collaborators. [ValueLookup] is the bulk key to value load
    of [gpf.lookups.ValueLookup.__init__]; [table_rows] gives the rows of
    a table, or the text of the [RuntimeError] when it cannot be read;
    [format_iterable] is [gpf.common.textutils.format_iterable]. *)
Record Gpf : Type := {
  ValueLookup : string -> string -> string -> result (gmap string value);
  table_rows : string -> string + list table_row;
  format_iterable : list string -> string -> string
}.

(** ** DefinitionTable *)

(** A loaded definition table: the dictionary the [ValueLookup] base
    class filled, and the lowercase solution name. *)
Record DefinitionTable : Type := {
  items : gmap string value;
  _solution : string
}.

(** The objects a caller may pass where a workspace or a definition table
    is expected. [EleDefinitions] instances are [DefinitionTable]s. *)
Inductive pyobj : Type :=
  | PyNone
  | PyText (s : string)
  | PyWorkspace (w : Workspace)
  | PyDefinitionTable (d : DefinitionTable).

(** [isinstance(o, gpf.paths.Workspace)], with the instance. *)
Definition as_Workspace (o : pyobj) : option Workspace :=
  match o with
  | PyWorkspace w => Some w
  | _ => None
  end.

(** [isinstance(o, DefinitionTable)], with the instance. *)
Definition as_DefinitionTable (o : pyobj) : option DefinitionTable :=
  match o with
  | PyDefinitionTable d => Some d
  | _ => None
  end.

(** [pass_if(isinstance(o, cls), exc_type, exc_val)], after which [o] is
    used as an instance of [cls]. *)
Definition pass_if_instance {A} (instance : option A)
    (exc_type : string -> exception) (exc_val : string) : result A :=
  match instance with
  | Some a => match pass_if true exc_type exc_val with Ok _ => Ok a | Raise e => Raise e end
  | None => Raise (exc_type exc_val)
  end.

(** [str(workspace.make_path(name))]. *)
Definition io_make_path (w : Workspace) (name : string) : IO string :=
  do _ <- io_emit (MakePath name);
  io_ret (make_path w name).

Module DefinitionTable.

(** [dict.get(key, default)], inherited from the lookup base class. *)
Definition get (self : DefinitionTable) (key : string) (default : value) : value :=
  match items self !! key with
  | Some v => v
  | None => default
  end.

Definition solution (self : DefinitionTable) : string := _solution self.

Definition __init__ (K : Const) (G : Gpf) (workspace : pyobj) (solution : string)
    : IO DefinitionTable :=
  do w <- io_lift (pass_if_instance (as_Workspace workspace) ValueError
                     (repr "DefinitionTable" +:+ " requires a " +:+ "Workspace" +:+ " object"));
  do table_path <- io_make_path w (format1 (GNTABLE_SOLUTION_DEF K) solution);
  do self <- io_except_RuntimeError
               (do _ <- io_emit (ReadTable table_path (GNFIELD_NAME K) [GNFIELD_VALUE K]);
                io_lift (ValueLookup G table_path (GNFIELD_NAME K) (GNFIELD_VALUE K)))
               (fun _ => "Failed to read GEONIS definition table for the '"
                         +:+ upper solution +:+ "' solution");
  if bool_decide (self = ∅)
  then io_raise (ValueError ("There are no definitions for the "
                             +:+ upper solution +:+ " solution"))
  else io_ret {| items := self; _solution := lower solution |}.

End DefinitionTable.

(** ** Name facades *)

(** The base class of the facades: its only slot is [_def]. *)
Record _Definition : Type := {
  _def : DefinitionTable
}.

Module _Definition.

Definition __init__ (definitions : pyobj) : result _Definition :=
  match pass_if_instance (as_DefinitionTable definitions) ValueError
          "'definitions' argument must be a DefinitionTable instance" with
  | Ok d => Ok {| _def := d |}
  | Raise e => Raise e
  end.

End _Definition.

Module _EleTableNames.

Definition __init__ := _Definition.__init__.

Definition strand (self : _Definition) : value :=
  DefinitionTable.get (_def self) "tablename_branch" (Some "ele_strang").
Definition cable (self : _Definition) : value :=
  DefinitionTable.get (_def self) "tablename_cable" (Some "ele_kabel").
Definition clamp (self : _Definition) : value :=
  DefinitionTable.get (_def self) "tablename_clamp" (Some "ele_ds_klemme").
Definition construction_line (self : _Definition) : value :=
  DefinitionTable.get (_def self) "tablename_construction_line" (Some "ele_bauobjekt_lin").
Definition cs_base (self : _Definition) : value :=
  DefinitionTable.get (_def self) "tablename_cs_base" (Some "ele_qs_basis").
Definition cs_cable (self : _Definition) : value :=
  DefinitionTable.get (_def self) "tablename_cs_cable" (Some "ele_qs_kabel").
Definition cs_area (self : _Definition) : value :=
  DefinitionTable.get (_def self) "tablename_cs_frame" (Some "ele_qs_fla").
Definition cs_pipe (self : _Definition) : value :=
  DefinitionTable.get (_def self) "tablename_cs_pipe" (Some "ele_qs_rohr").
Definition cs_pipe_pipe (self : _Definition) : value :=
  DefinitionTable.get (_def self) "tablename_cs_pipepipe" (Some "ele_qs_rohr_rohr").
Definition cs_cable_protect_pos (self : _Definition) : value :=
  DefinitionTable.get (_def self) "tablename_cs_posnum_label" (Some "elet_qs_kabelschutzpos").
Definition ds_connector (self : _Definition) : value :=
  DefinitionTable.get (_def self) "tablename_ds_connector" (Some "ele_ds_verbinder").
Definition ds_cable_connector (self : _Definition) : value :=
  DefinitionTable.get (_def self) "tablename_ds_cableconnector" (Some "ele_ds_kabelverbindung").
Definition ds_transition (self : _Definition) : value :=
  DefinitionTable.get (_def self) "tablename_ds_inout" (Some "ele_ds_uebergang").
Definition ds_station (self : _Definition) : value :=
  DefinitionTable.get (_def self) "tablename_ds_station" (Some "ele_ds_station").
Definition ds_transformer (self : _Definition) : value :=
  DefinitionTable.get (_def self) "tablename_ds_transformer" (Some "ele_ds_transformer").
Definition house (self : _Definition) : value :=
  DefinitionTable.get (_def self) "tablename_house_conn" (Some "ele_hausanschluss").
Definition lighting (self : _Definition) : value :=
  DefinitionTable.get (_def self) "tablename_luminary" (Some "ele_leuchte").
Definition pipe (self : _Definition) : value :=
  DefinitionTable.get (_def self) "tablename_pipe" (Some "ele_rohr").
Definition rel_cable_route (self : _Definition) : value :=
  DefinitionTable.get (_def self) "tablename_route_cable" (Some "eler_trasse_kabel").
Definition rel_pipe_cable (self : _Definition) : value :=
  DefinitionTable.get (_def self) "tablename_pipe_cable" (Some "eler_rohr_kabel").
Definition rel_pipe_pipe (self : _Definition) : value :=
  DefinitionTable.get (_def self) "tablename_pipe_pipe" (Some "eler_rohr_rohr").
Definition rel_route_rohr (self : _Definition) : value :=
  DefinitionTable.get (_def self) "tablename_route_pipe" (Some "eler_route_pipe").
Definition route (self : _Definition) : value :=
  DefinitionTable.get (_def self) "tablename_route" (Some "ele_trasse").
Definition sec_cable_voltage (self : _Definition) : value :=
  DefinitionTable.get (_def self) "tablename_sec_cable_dense" (Some "eles_spannung").
Definition sec_cable_protect (self : _Definition) : value :=
  DefinitionTable.get (_def self) "tablename_sec_cable_protect" (Some "eles_kabelschutz_rohr").
Definition sec_cs_cable (self : _Definition) : value :=
  DefinitionTable.get (_def self) "tablename_sec_cable_cs" (Some "eles_querschnitt_kabel").
Definition sec_cs_route (self : _Definition) : value :=
  DefinitionTable.get (_def self) "tablename_typ_querschnitt" (Some "eles_querschnitt_trasse").
Definition sec_cs_scaling (self : _Definition) : value :=
  DefinitionTable.get (_def self) "tablename_querschnitt_skalierung" (Some "eles_querschnitt_skalierung").
Definition sec_net_color (self : _Definition) : value :=
  DefinitionTable.get (_def self) "tablename_sec_netcolor" (Some "eles_netzfarbe").
Definition sec_type_dd (self : _Definition) : value :=
  DefinitionTable.get (_def self) "tablename_typ_ds" (Some "eles_typ_ds").
Definition sec_type_route (self : _Definition) : value :=
  DefinitionTable.get (_def self) "tablename_typ_trasse" (Some "eles_typ_trasse").
Definition sleeve (self : _Definition) : value :=
  DefinitionTable.get (_def self) "tablename_sleeve_socket" (Some "ele_muffe").
Definition small_connection (self : _Definition) : value :=
  DefinitionTable.get (_def self) "tablename_small_conn" (Some "ele_kleinanschluss").
Definition t_cs_cable (self : _Definition) : value :=
  DefinitionTable.get (_def self) "tablename_t_cs_cable" (Some "elet_qs_kabel").
Definition t_cs_rohr (self : _Definition) : value :=
  DefinitionTable.get (_def self) "tablename_t_cs_pipe" (Some "elet_qs_rohr").
Definition t_cs_rohr_rohr (self : _Definition) : value :=
  DefinitionTable.get (_def self) "tablename_t_cs_pipe_pipe" (Some "elet_qs_rohr_rohr").

End _EleTableNames.

(** The module level variable [_gn_lang] together with the number of
    calls made so far to [gntools.common.i18n.get_language]. *)
Record lang_state : Type := {
  _gn_lang : value;
  get_language_calls : nat
}.

(** The state of a fresh process: [_gn_lang = None]. *)
Definition lang_init : lang_state := {| _gn_lang := None; get_language_calls := 0 |}.

Module _EleFieldNames.

Definition __init__ := _Definition.__init__.

Definition cable_protect (self : _Definition) : value :=
  DefinitionTable.get (_def self) "fieldname_cable_protect" (Some "kabelschutz").
Definition cable_ref (self : _Definition) : value :=
  DefinitionTable.get (_def self) "fieldname_cable_ref" (Some "kabel_ref").
Definition clamp_number (self : _Definition) : value :=
  DefinitionTable.get (_def self) "fieldname_clamp_number" (Some "nummer").
Definition code_ref (self : _Definition) : value :=
  DefinitionTable.get (_def self) "fieldname_code_ref" (Some "code").
Definition cs_angle (self : _Definition) : value :=
  DefinitionTable.get (_def self) "fieldname_cs_angle" (Some "symbolori").
Definition cs_mapscale (self : _Definition) : value :=
  DefinitionTable.get (_def self) "fieldname_cs_mapscale" (Some "mapscale").
Definition cs_ref (self : _Definition) : value :=
  DefinitionTable.get (_def self) "fieldname_cs_ref" (Some "qs_ref").
Definition cs_released (self : _Definition) : value :=
  DefinitionTable.get (_def self) "fieldname_cs_released" (Some "released").
Definition cs_type (self : _Definition) : value :=
  DefinitionTable.get (_def self) "fieldname_cs_typ" (Some "querschnitt").
Definition cs_visible (self : _Definition) : value :=
  DefinitionTable.get (_def self) "fieldname_cs_visible" (Some "visible").
Definition cs_width (self : _Definition) : value :=
  DefinitionTable.get (_def self) "fieldname_cs_width" (Some "breite").
Definition dd_ref (self : _Definition) : value :=
  DefinitionTable.get (_def self) "fieldname_ds_ref" (Some "ds_ref").
Definition ddhv_ref (self : _Definition) : value :=
  DefinitionTable.get (_def self) "fieldname_dshs_ref" (Some "dshs_ref").
Definition ddlv_ref (self : _Definition) : value :=
  DefinitionTable.get (_def self) "fieldname_dsns_ref" (Some "dsns_ref").
Definition ddmv_ref (self : _Definition) : value :=
  DefinitionTable.get (_def self) "fieldname_dsms_ref" (Some "dsms_ref").
Definition ddpl_ref (self : _Definition) : value :=
  DefinitionTable.get (_def self) "fieldname_dsob_ref" (Some "dsob_ref").
Definition info_text (self : _Definition) : value :=
  DefinitionTable.get (_def self) "fieldname_elementinfo" (Some "infotext").
Definition feature_link (self : _Definition) : value :=
  DefinitionTable.get (_def self) "fieldname_featurelink" (Some "featurelink").
Definition index (self : _Definition) : value :=
  DefinitionTable.get (_def self) "fieldname_idx" (Some "idx").
Definition ipipe_ref (self : _Definition) : value :=
  DefinitionTable.get (_def self) "fieldname_ipipe_ref" (Some "inner_rohr_ref").
Definition length (self : _Definition) : value :=
  DefinitionTable.get (_def self) "fieldname_length" (Some "laenge").
Definition opipe_ref (self : _Definition) : value :=
  DefinitionTable.get (_def self) "fieldname_opipe_ref" (Some "ueber_rohr_ref").
Definition pipe_ref (self : _Definition) : value :=
  DefinitionTable.get (_def self) "fieldname_pipe_ref" (Some "rohr_ref").
Definition position (self : _Definition) : value :=
  DefinitionTable.get (_def self) "fieldname_posnum" (Some "posnum").
Definition route_index (self : _Definition) : value :=
  DefinitionTable.get (_def self) "fieldname_trench_idx" (Some "trasse_idx").
Definition route_pos (self : _Definition) : value :=
  DefinitionTable.get (_def self) "fieldname_trench_pos" (Some "trasse_pos").
Definition route_ref (self : _Definition) : value :=
  DefinitionTable.get (_def self) "fieldname_route_ref" (Some "trasse_ref").
Definition route_reverse (self : _Definition) : value :=
  DefinitionTable.get (_def self) "fieldname_trench_reverse" (Some "reverse").
Definition route_type (self : _Definition) : value :=
  DefinitionTable.get (_def self) "fieldname_trasse_typ" (Some "typ").
Definition station_ref (self : _Definition) : value :=
  DefinitionTable.get (_def self) "fieldname_station_ref" (Some "station_ref").
Definition strand_ref (self : _Definition) : value :=
  DefinitionTable.get (_def self) "fieldname_strang_ref" (Some "strang_ref").
Definition text_ori (self : _Definition) : value :=
  DefinitionTable.get (_def self) "fieldname_text_angle" (Some "textori").
Definition transformer_number (self : _Definition) : value :=
  DefinitionTable.get (_def self) "fieldname_ds_trafo_name_number" (Some "name_nummer").
Definition transformer_power (self : _Definition) : value :=
  DefinitionTable.get (_def self) "fieldname_trafo_power" (Some "leistung").
Definition transformer_ref (self : _Definition) : value :=
  DefinitionTable.get (_def self) "fieldname_trafo_ref" (Some "trafo_ref").
Definition voltage (self : _Definition) : value :=
  DefinitionTable.get (_def self) "fieldname_dense" (Some "spannung").

Definition name_number (self : _Definition) : result value :=
  match _EleTableNames.__init__ (PyDefinitionTable (_def self)) with
  | Ok t =>
      if bool_decide (_EleTableNames.sec_cable_voltage t = Some "eles_spannung")
      then Ok (Some "name_nummer")
      else Ok (Some "name_number")
  | Raise e => Raise e
  end.

(** The dictionary literal of [description]: a later entry replaces an
    earlier one with the same key. *)
Definition description_names (K : Const) : gmap string string :=
  <[GN_LANG_IT K := GNFIELD_DESC_IT K]>
  (<[GN_LANG_FR K := GNFIELD_DESC_FR K]>
  (<[GN_LANG_EN K := GNFIELD_DESC_EN K]>
  (<[GN_LANG_DE K := GNFIELD_DESC_DE K]>
  (<[GN_LANG_CUSTOM K := GNFIELD_DESC_CUSTOM K]> ∅)))).

(** [{...}.get(lang, GNFIELD_DESC_DE)]; [None] is not a key. *)
Definition description_of (K : Const) (lang : value) : string :=
  match lang with
  | Some code =>
      match description_names K !! code with
      | Some name => name
      | None => GNFIELD_DESC_DE K
      end
  | None => GNFIELD_DESC_DE K
  end.

(** [_gn_lang = _gn_lang or _i18n.get_language()]: the provider is called
    only when [_gn_lang] is false. [get_language n] is the answer of the
    provider to its call number [n]. *)
Definition read_language (get_language : nat -> value) (st : lang_state) : lang_state :=
  if truthy (_gn_lang st) then st
  else {| _gn_lang := get_language (get_language_calls st);
          get_language_calls := S (get_language_calls st) |}.

Definition description (K : Const) (get_language : nat -> value)
    (self : _Definition) (st : lang_state) : string * lang_state :=
  let st' := read_language get_language st in
  (description_of K (_gn_lang st'), st').

End _EleFieldNames.

Module EleDefinitions.

Definition __init__ (K : Const) (G : Gpf) (workspace : pyobj) : IO DefinitionTable :=
  DefinitionTable.__init__ K G workspace (GNMEDIA_ELECTRIC K).

Definition tables (self : DefinitionTable) : result _Definition :=
  _EleTableNames.__init__ (PyDefinitionTable self).

Definition fields (self : DefinitionTable) : result _Definition :=
  _EleFieldNames.__init__ (PyDefinitionTable self).

End EleDefinitions.

(** ** Relation *)

(** The 7-tuple of a table relation, by field name. *)
Record Relation : Type := {
  target_table : value;
  relate_table : value;
  source_field : value;
  target_field : value;
  relate_source : value;
  relate_target : value;
  relate_type : value
}.

Module Relation.

(** The number of fields: [cls.__new__.func_code.co_argcount - 1]. *)
Definition argcount : nat := 7.

(** [args[i]], or [None] on [IndexError], for [i] below [argcount]. *)
Definition _fix_args (args : list value) : list value :=
  map (fun i => match args !! i with
                | Some v => v
                | None => None
                end) (seq 0 argcount).

(** The tuple behind the record, [self[0]] to [self[6]]. *)
Definition to_tuple (self : Relation) : list value :=
  [target_table self; relate_table self; source_field self; target_field self;
   relate_source self; relate_target self; relate_type self].

Definition item (t : list value) (i : nat) : value :=
  match t !! i with
  | Some v => v
  | None => None
  end.

Definition of_tuple (t : list value) : Relation :=
  {| target_table := item t 0; relate_table := item t 1; source_field := item t 2;
     target_field := item t 3; relate_source := item t 4; relate_target := item t 5;
     relate_type := item t 6 |}.

(** [Relation] called with positional arguments: they are bound to the seven
    parameters, the missing ones default to [None], and more than seven
    are a [TypeError]. *)
Definition __new__ (args : list value) : result Relation :=
  if bool_decide (length args ≤ argcount)%nat
  then Ok (of_tuple (_fix_args (map (item args) (seq 0 argcount))))
  else Raise (TypeError "__new__() takes at most 8 arguments").

(** [any(self)]. *)
Definition __nonzero__ (self : Relation) : bool := existsb truthy (to_tuple self).

End Relation.

(** ** RelationTable *)

Inductive warning : Type :=
  | RelationWarning (msg : string).

(** The lookup under construction: the dictionary [self] and the
    warnings issued so far through [warnings.warn]. *)
Record RelationTable : Type := {
  relations : gmap string Relation;
  warned : list warning
}.

(** [gpf.tools.queries.Where(field).Equals(value)]. *)
Record Where : Type := {
  where_field : string;
  where_value : string
}.

Definition where_matches (w : Where) (r : table_row) : bool :=
  bool_decide (r (where_field w) = Some (where_value w)).

Module RelationTable.

(** [v.upper().strip() if isinstance(v, basestring) else v]. *)
Definition format_value (v : value) : value :=
  match v with
  | Some s => Some (strip (upper s))
  | None => None
  end.

Definition multiple_message (key : string) (values : Relation) : string :=
  "Source table '" +:+ upper key +:+ "' participates in multiple "
  +:+ str_of_value (relate_type values) +:+ " relationships".

Definition _process_row (row : list value) (self : RelationTable) : result RelationTable :=
  let formatted := map format_value row in
  match formatted with
  | [] => Raise (IndexError "list index out of range")
  | key :: rest =>
      match Relation.__new__ rest with
      | Raise e => Raise e
      | Ok values =>
          match key with
          | None => Ok self
          | Some k =>
              if negb (truthy (Some k)) then Ok self
              else if bool_decide (is_Some (relations self !! k))
              then Ok {| relations := relations self;
                         warned := warned self ++ [RelationWarning (multiple_message k values)] |}
              else Ok {| relations := <[k := values]> (relations self);
                         warned := warned self |}
          end
      end
  end.

(** The cursor loop of the base class: every row goes through the hook. *)
Fixpoint process_rows (rows : list (list value)) (self : RelationTable)
    : result RelationTable :=
  match rows with
  | [] => Ok self
  | row :: rest =>
      match _process_row row self with
      | Ok self' => process_rows rest self'
      | Raise e => Raise e
      end
  end.

(** The columns the cursor returns for a row: the key field first. *)
Definition select (key_field : string) (fields : list string) (r : table_row)
    : list value :=
  map r (key_field :: fields).

Definition empty : RelationTable := {| relations := ∅; warned := [] |}.

(** The scan of the rows of a table: the rows the where clause keeps,
    each reduced to the key field and the fields, in table order. *)
Definition scan_from (key_field : string) (fields : list string) (where_clause : Where)
    (rows : list table_row) (self : RelationTable) : result RelationTable :=
  process_rows
    (map (select key_field fields) (List.filter (where_matches where_clause) rows))
    self.

Definition scan (key_field : string) (fields : list string) (where_clause : Where)
    (rows : list table_row) : result RelationTable :=
  scan_from key_field fields where_clause rows empty.

(** [gpf.lookups.Lookup.__init__(table_path, key_field, fields, where_clause)]:
    one scan of the table, filtered by the where clause. *)
Definition Lookup__init__ (G : Gpf) (table_path key_field : string)
    (fields : list string) (where_clause : Where) : IO RelationTable :=
  do _ <- io_emit (ReadTable table_path key_field fields);
  match table_rows G table_path with
  | inl e => io_raise (RuntimeError e)
  | inr rows =>
      io_lift (scan key_field fields where_clause rows)
  end.

Definition rel_types (K : Const) : list string :=
  [GNRELTYPE_AGGREGRATE K; GNRELTYPE_COMPOSITE K; GNRELTYPE_DATALINK K;
   GNRELTYPE_ENTITY K; GNRELTYPE_LABEL K; GNRELTYPE_PLAN K;
   GNRELTYPE_RELATE K; GNRELTYPE_SHAPEGROUP K].

(** The key field of the lookup, by [reverse]. *)
Definition src_table (K : Const) (reverse : bool) : string :=
  if reverse then GNFIELD_REL_TABLE_DST K else GNFIELD_REL_TABLE_SRC K.

(** The fields to collect, by [reverse]. *)
Definition fields (K : Const) (reverse : bool) : list string :=
  let dst_table := if reverse then GNFIELD_REL_TABLE_SRC K else GNFIELD_REL_TABLE_DST K in
  let src_field := if reverse then GNFIELD_REL_KEYFIELD_DST K else GNFIELD_REL_KEYFIELD_SRC K in
  let dst_field := if reverse then GNFIELD_REL_KEYFIELD_SRC K else GNFIELD_REL_KEYFIELD_DST K in
  let src_rel := if reverse then GNFIELD_REL_RELFIELD_DST K else GNFIELD_REL_RELFIELD_SRC K in
  let dst_rel := if reverse then GNFIELD_REL_RELFIELD_SRC K else GNFIELD_REL_RELFIELD_DST K in
  [dst_table; GNFIELD_REL_TABLE_REL K; src_field; dst_field; src_rel; dst_rel;
   GNFIELD_REL_TYPE K].

Definition __init__ (K : Const) (G : Gpf) (workspace : pyobj) (relation_type : string)
    (reverse : bool) : IO RelationTable :=
  do w <- io_lift (pass_if_instance (as_Workspace workspace) ValueError
                     (repr "DefinitionTable" +:+ " requires a " +:+ "Workspace" +:+ " object"));
  do _ <- io_lift (pass_if (bool_decide (relation_type ∈ rel_types K)) ValueError
                     ("relation_type must be one of "
                      +:+ format_iterable G (rel_types K) (TEXT_OR K)));
  do table_path <- io_make_path w (GNTABLE_RELATION_DEF K);
  let type_filter := {| where_field := GNFIELD_REL_TYPE K; where_value := relation_type |} in
  io_except_RuntimeError
    (Lookup__init__ G table_path (src_table K reverse) (fields K reverse) type_filter)
    (fun e => "Failed to read GEONIS relation table '" +:+ table_path +:+ "': " +:+ e).

(** What [__init__] computes from the rows of the relation table once
    its arguments are validated and the table is read. *)
Definition load (K : Const) (relation_type : string) (reverse : bool)
    (rows : list table_row) : result RelationTable :=
  scan (src_table K reverse) (fields K reverse)
       {| where_field := GNFIELD_REL_TYPE K; where_value := relation_type |} rows.

(** The same scan continued from a lookup that is partly filled. *)
Definition load_from (K : Const) (relation_type : string) (reverse : bool)
    (rows : list table_row) (self : RelationTable) : result RelationTable :=
  scan_from (src_table K reverse) (fields K reverse)
            {| where_field := GNFIELD_REL_TYPE K; where_value := relation_type |} rows self.

(** The key a table row is stored under, after formatting. *)
Definition key_of (K : Const) (reverse : bool) (r : table_row) : value :=
  format_value (r (src_table K reverse)).

(** The record a table row is stored as, after formatting. *)
Definition record_of (K : Const) (reverse : bool) (r : table_row) : Relation :=
  Relation.of_tuple (map format_value (map r (fields K reverse))).

(** The row is kept by the filter on the relation type. *)
Definition has_type (K : Const) (relation_type : string) (r : table_row) : Prop :=
  r (GNFIELD_REL_TYPE K) = Some relation_type.

End RelationTable.

(** ** Repeated accesses to [description] *)

(** [n] successive reads of the [description] property in one process. *)
Fixpoint descriptions (K : Const) (get_language : nat -> value) (self : _Definition)
    (n : nat) (st : lang_state) : list string * lang_state :=
  match n with
  | 0 => ([], st)
  | S n' =>
      let (d, st') := _EleFieldNames.description K get_language self st in
      let (ds, st'') := descriptions K get_language self n' st' in
      (d :: ds, st'')
  end.

(** The five description field names and the five language codes. *)
Definition description_fields (K : Const) : list string :=
  [GNFIELD_DESC_CUSTOM K; GNFIELD_DESC_DE K; GNFIELD_DESC_EN K;
   GNFIELD_DESC_FR K; GNFIELD_DESC_IT K].

Definition language_codes (K : Const) : list string :=
  [GN_LANG_CUSTOM K; GN_LANG_DE K; GN_LANG_EN K; GN_LANG_FR K; GN_LANG_IT K].

(** ** Sample data *)

(** Modelled from the spec: the constants of [gntools.common.const] and
    [gntools.common.i18n], which are not among the sources. The table
    names follow the module documentation, the relation type codes and
    the languages follow the specification; the other texts are sample
    values. Only examples use them: the theorems hold for every [Const]. *)
Definition sample_const : Const := {|
  GNTABLE_SOLUTION_DEF := ("GN", "_DEFINITION");
  GNTABLE_RELATION_DEF := "GNREL_DEFINITION";
  GNFIELD_NAME := "NAME";
  GNFIELD_VALUE := "VALUE";
  GNMEDIA_ELECTRIC := "ELE";
  TEXT_OR := "or";
  GNFIELD_DESC_CUSTOM := "description_custom";
  GNFIELD_DESC_DE := "description_de";
  GNFIELD_DESC_EN := "description_en";
  GNFIELD_DESC_FR := "description_fr";
  GNFIELD_DESC_IT := "description_it";
  GN_LANG_CUSTOM := "custom";
  GN_LANG_DE := "de";
  GN_LANG_EN := "en";
  GN_LANG_FR := "fr";
  GN_LANG_IT := "it";
  GNRELTYPE_AGGREGRATE := "aggregate";
  GNRELTYPE_COMPOSITE := "composite";
  GNRELTYPE_DATALINK := "datalink";
  GNRELTYPE_ENTITY := "entity";
  GNRELTYPE_LABEL := "label";
  GNRELTYPE_PLAN := "plan";
  GNRELTYPE_RELATE := "relate";
  GNRELTYPE_SHAPEGROUP := "shapegroup";
  GNFIELD_REL_TABLE_SRC := "TABLE_SRC";
  GNFIELD_REL_TABLE_DST := "TABLE_DST";
  GNFIELD_REL_TABLE_REL := "TABLE_REL";
  GNFIELD_REL_KEYFIELD_SRC := "KEYFIELD_SRC";
  GNFIELD_REL_KEYFIELD_DST := "KEYFIELD_DST";
  GNFIELD_REL_RELFIELD_SRC := "RELFIELD_SRC";
  GNFIELD_REL_RELFIELD_DST := "RELFIELD_DST";
  GNFIELD_REL_TYPE := "REL_TYPE"
|}.

Definition sample_workspace : Workspace :=
  {| make_path := fun name => "geonis.gdb/" +:+ name |}.

(** A database with one definition table and one relation table. *)
Definition sample_gpf (definitions : gmap string value) (rows : list table_row) : Gpf :=
  {| ValueLookup := fun _ _ _ => Ok definitions;
     table_rows := fun _ => inr rows;
     format_iterable := fun l sep => String.concat ", " l |}.

(** A row of the relation table, by column of [sample_const]. *)
Definition sample_row (src dst rel ksrc kdst rsrc rdst ty : value) : table_row :=
  fun column =>
    if String.eqb column "TABLE_SRC" then src
    else if String.eqb column "TABLE_DST" then dst
    else if String.eqb column "TABLE_REL" then rel
    else if String.eqb column "KEYFIELD_SRC" then ksrc
    else if String.eqb column "KEYFIELD_DST" then kdst
    else if String.eqb column "RELFIELD_SRC" then rsrc
    else if String.eqb column "RELFIELD_DST" then rdst
    else if String.eqb column "REL_TYPE" then ty
    else None.

(** The cable to route relation, with the names in lower case. *)
Definition cable_route_row : table_row :=
  sample_row (Some "ele_kabel") (Some "ele_trasse") (Some "eler_trasse_kabel")
             (Some "globalid") (Some "kabel_ref") (Some "rel_kabel") (Some "rel_trasse")
             (Some "relate").

(** A second row for the cable table, written with blanks and capitals. *)
Definition cable_pipe_row : table_row :=
  sample_row (Some " ELE_Kabel ") (Some "ele_rohr") (Some "eler_rohr_kabel")
             (Some "globalid") (Some "kabel_ref") (Some "rel_kabel") (Some "rel_rohr")
             (Some "relate").

(** A row whose source table is only blanks. *)
Definition blank_row : table_row :=
  sample_row (Some "   ") (Some "ele_rohr") None (Some "globalid") (Some "kabel_ref")
             None None (Some "relate").

(** A language provider that has no answer at first and then says English. *)
Definition late_provider : nat -> value :=
  fun n => match n with
           | 0 => None
           | S _ => Some "en"
           end.

(** ** Vocabulary of the further properties *)

(** The definition table with one more row, which replaces a row of the
    same key. *)
Definition with_override (key : string) (v : value) (d : DefinitionTable)
    : DefinitionTable :=
  {| items := <[key := v]> (items d); _solution := _solution d |}.

(** The properties of the tables facade that read one key: override key,
    default name and accessor. *)
Definition table_names : list (string * string * (_Definition -> value)) :=
  [("tablename_branch", "ele_strang", _EleTableNames.strand);
   ("tablename_cable", "ele_kabel", _EleTableNames.cable);
   ("tablename_clamp", "ele_ds_klemme", _EleTableNames.clamp);
   ("tablename_construction_line", "ele_bauobjekt_lin", _EleTableNames.construction_line);
   ("tablename_cs_base", "ele_qs_basis", _EleTableNames.cs_base);
   ("tablename_cs_cable", "ele_qs_kabel", _EleTableNames.cs_cable);
   ("tablename_cs_frame", "ele_qs_fla", _EleTableNames.cs_area);
   ("tablename_cs_pipe", "ele_qs_rohr", _EleTableNames.cs_pipe);
   ("tablename_cs_pipepipe", "ele_qs_rohr_rohr", _EleTableNames.cs_pipe_pipe);
   ("tablename_cs_posnum_label", "elet_qs_kabelschutzpos", _EleTableNames.cs_cable_protect_pos);
   ("tablename_ds_connector", "ele_ds_verbinder", _EleTableNames.ds_connector);
   ("tablename_ds_cableconnector", "ele_ds_kabelverbindung", _EleTableNames.ds_cable_connector);
   ("tablename_ds_inout", "ele_ds_uebergang", _EleTableNames.ds_transition);
   ("tablename_ds_station", "ele_ds_station", _EleTableNames.ds_station);
   ("tablename_ds_transformer", "ele_ds_transformer", _EleTableNames.ds_transformer);
   ("tablename_house_conn", "ele_hausanschluss", _EleTableNames.house);
   ("tablename_luminary", "ele_leuchte", _EleTableNames.lighting);
   ("tablename_pipe", "ele_rohr", _EleTableNames.pipe);
   ("tablename_route_cable", "eler_trasse_kabel", _EleTableNames.rel_cable_route);
   ("tablename_pipe_cable", "eler_rohr_kabel", _EleTableNames.rel_pipe_cable);
   ("tablename_pipe_pipe", "eler_rohr_rohr", _EleTableNames.rel_pipe_pipe);
   ("tablename_route_pipe", "eler_route_pipe", _EleTableNames.rel_route_rohr);
   ("tablename_route", "ele_trasse", _EleTableNames.route);
   ("tablename_sec_cable_dense", "eles_spannung", _EleTableNames.sec_cable_voltage);
   ("tablename_sec_cable_protect", "eles_kabelschutz_rohr", _EleTableNames.sec_cable_protect);
   ("tablename_sec_cable_cs", "eles_querschnitt_kabel", _EleTableNames.sec_cs_cable);
   ("tablename_typ_querschnitt", "eles_querschnitt_trasse", _EleTableNames.sec_cs_route);
   ("tablename_querschnitt_skalierung", "eles_querschnitt_skalierung", _EleTableNames.sec_cs_scaling);
   ("tablename_sec_netcolor", "eles_netzfarbe", _EleTableNames.sec_net_color);
   ("tablename_typ_ds", "eles_typ_ds", _EleTableNames.sec_type_dd);
   ("tablename_typ_trasse", "eles_typ_trasse", _EleTableNames.sec_type_route);
   ("tablename_sleeve_socket", "ele_muffe", _EleTableNames.sleeve);
   ("tablename_small_conn", "ele_kleinanschluss", _EleTableNames.small_connection);
   ("tablename_t_cs_cable", "elet_qs_kabel", _EleTableNames.t_cs_cable);
   ("tablename_t_cs_pipe", "elet_qs_rohr", _EleTableNames.t_cs_rohr);
   ("tablename_t_cs_pipe_pipe", "elet_qs_rohr_rohr", _EleTableNames.t_cs_rohr_rohr)].

(** The same for the fields facade. *)
Definition field_names : list (string * string * (_Definition -> value)) :=
  [("fieldname_cable_protect", "kabelschutz", _EleFieldNames.cable_protect);
   ("fieldname_cable_ref", "kabel_ref", _EleFieldNames.cable_ref);
   ("fieldname_clamp_number", "nummer", _EleFieldNames.clamp_number);
   ("fieldname_code_ref", "code", _EleFieldNames.code_ref);
   ("fieldname_cs_angle", "symbolori", _EleFieldNames.cs_angle);
   ("fieldname_cs_mapscale", "mapscale", _EleFieldNames.cs_mapscale);
   ("fieldname_cs_ref", "qs_ref", _EleFieldNames.cs_ref);
   ("fieldname_cs_released", "released", _EleFieldNames.cs_released);
   ("fieldname_cs_typ", "querschnitt", _EleFieldNames.cs_type);
   ("fieldname_cs_visible", "visible", _EleFieldNames.cs_visible);
   ("fieldname_cs_width", "breite", _EleFieldNames.cs_width);
   ("fieldname_ds_ref", "ds_ref", _EleFieldNames.dd_ref);
   ("fieldname_dshs_ref", "dshs_ref", _EleFieldNames.ddhv_ref);
   ("fieldname_dsns_ref", "dsns_ref", _EleFieldNames.ddlv_ref);
   ("fieldname_dsms_ref", "dsms_ref", _EleFieldNames.ddmv_ref);
   ("fieldname_dsob_ref", "dsob_ref", _EleFieldNames.ddpl_ref);
   ("fieldname_elementinfo", "infotext", _EleFieldNames.info_text);
   ("fieldname_featurelink", "featurelink", _EleFieldNames.feature_link);
   ("fieldname_idx", "idx", _EleFieldNames.index);
   ("fieldname_ipipe_ref", "inner_rohr_ref", _EleFieldNames.ipipe_ref);
   ("fieldname_length", "laenge", _EleFieldNames.length);
   ("fieldname_opipe_ref", "ueber_rohr_ref", _EleFieldNames.opipe_ref);
   ("fieldname_pipe_ref", "rohr_ref", _EleFieldNames.pipe_ref);
   ("fieldname_posnum", "posnum", _EleFieldNames.position);
   ("fieldname_trench_idx", "trasse_idx", _EleFieldNames.route_index);
   ("fieldname_trench_pos", "trasse_pos", _EleFieldNames.route_pos);
   ("fieldname_route_ref", "trasse_ref", _EleFieldNames.route_ref);
   ("fieldname_trench_reverse", "reverse", _EleFieldNames.route_reverse);
   ("fieldname_trasse_typ", "typ", _EleFieldNames.route_type);
   ("fieldname_station_ref", "station_ref", _EleFieldNames.station_ref);
   ("fieldname_strang_ref", "strang_ref", _EleFieldNames.strand_ref);
   ("fieldname_text_angle", "textori", _EleFieldNames.text_ori);
   ("fieldname_ds_trafo_name_number", "name_nummer", _EleFieldNames.transformer_number);
   ("fieldname_trafo_power", "leistung", _EleFieldNames.transformer_power);
   ("fieldname_trafo_ref", "trafo_ref", _EleFieldNames.transformer_ref);
   ("fieldname_dense", "spannung", _EleFieldNames.voltage)].

(** The first row of the relation type whose formatted key is [k]. *)
Definition first_row (K : Const) (relation_type : string) (reverse : bool) (k : string)
    (rows : list table_row) : option table_row :=
  List.find (fun r => where_matches {| where_field := GNFIELD_REL_TYPE K;
                                       where_value := relation_type |} r
                      && bool_decide (RelationTable.key_of K reverse r = Some k)) rows.

(** The rows of the relation type whose formatted key is not blank. *)
Definition keyed_rows (K : Const) (relation_type : string) (reverse : bool)
    (rows : list table_row) : list table_row :=
  List.filter (fun r => where_matches {| where_field := GNFIELD_REL_TYPE K;
                                         where_value := relation_type |} r
                        && truthy (RelationTable.key_of K reverse r)) rows.

(** The column that takes the role of a column when source and
    destination are exchanged. *)
Definition swap_column (K : Const) (column : string) : string :=
  if decide (column = GNFIELD_REL_TABLE_SRC K) then GNFIELD_REL_TABLE_DST K
  else if decide (column = GNFIELD_REL_TABLE_DST K) then GNFIELD_REL_TABLE_SRC K
  else if decide (column = GNFIELD_REL_KEYFIELD_SRC K) then GNFIELD_REL_KEYFIELD_DST K
  else if decide (column = GNFIELD_REL_KEYFIELD_DST K) then GNFIELD_REL_KEYFIELD_SRC K
  else if decide (column = GNFIELD_REL_RELFIELD_SRC K) then GNFIELD_REL_RELFIELD_DST K
  else if decide (column = GNFIELD_REL_RELFIELD_DST K) then GNFIELD_REL_RELFIELD_SRC K
  else column.

(** The row with the cells of the source and destination columns exchanged. *)
Definition mirror (K : Const) (r : table_row) : table_row :=
  fun column => r (swap_column K column).

(** The eight columns of the relation table. *)
Definition relation_columns (K : Const) : list string :=
  [GNFIELD_REL_TABLE_SRC K; GNFIELD_REL_TABLE_DST K; GNFIELD_REL_TABLE_REL K;
   GNFIELD_REL_KEYFIELD_SRC K; GNFIELD_REL_KEYFIELD_DST K;
   GNFIELD_REL_RELFIELD_SRC K; GNFIELD_REL_RELFIELD_DST K; GNFIELD_REL_TYPE K].

(** A row of another relation type for the cable table. *)
Definition label_row : table_row :=
  sample_row (Some "ele_kabel") (Some "elet_kabel") None (Some "globalid")
             (Some "kabel_ref") None None (Some "label").

(** A provider that never has an answer, and one that answers with the
    empty text twice before it says French. *)
Definition silent_provider : nat -> value := fun _ => None.

Definition slow_provider : nat -> value :=
  fun n => match n with
           | 0 | 1 => Some ""
           | _ => Some "fr"
           end.

(** * Properties *)

(** ** DefinitionTable and the name facades *)

Section Definitions.

Context (K : Const) (G : Gpf).

Lemma get_lookup_Some (self : DefinitionTable) (k : string) (d v : value) :
  items self !! k = Some v -> DefinitionTable.get self k d = v.
Proof. unfold DefinitionTable.get. intros ->. reflexivity. Qed.

Lemma get_lookup_None (self : DefinitionTable) (k : string) (d : value) :
  items self !! k = None -> DefinitionTable.get self k d = d.
Proof. unfold DefinitionTable.get. intros ->. reflexivity. Qed.

Lemma facade_of_table (d : DefinitionTable) :
  _Definition.__init__ (PyDefinitionTable d) = Ok {| _def := d |}.
Proof. reflexivity. Qed.

(** C1: [DefinitionTable.get(k, d)] returns the stored override when [k]
    is a key of the loaded mapping and [d] itself otherwise; over a table
    with the row [("tablename_cable", "custom_kabel")] and no row for the
    clamp, [tables.cable] is ["custom_kabel"] and [tables.clamp] is the
    default ["ele_ds_klemme"]. *)
Theorem DefinitionTable_get_override_or_default
    (self : DefinitionTable) (k : string) (d : value) :
  (forall v, items self !! k = Some v -> DefinitionTable.get self k d = v)
  /\ (items self !! k = None -> DefinitionTable.get self k d = d)
  /\ (items self !! "tablename_cable" = Some (Some "custom_kabel") ->
      items self !! "tablename_clamp" = None ->
      exists tables,
        EleDefinitions.tables self = Ok tables
        /\ _EleTableNames.cable tables = Some "custom_kabel"
        /\ _EleTableNames.clamp tables = Some "ele_ds_klemme").
Proof.
  split; [|split].
  - intros v Hv. by apply get_lookup_Some.
  - apply get_lookup_None.
  - intros Hcable Hclamp. exists {| _def := self |}. split; [reflexivity|].
    unfold _EleTableNames.cable, _EleTableNames.clamp. cbn [_def].
    by rewrite (get_lookup_Some _ _ _ _ Hcable), (get_lookup_None _ _ _ Hclamp).
Qed.

(** End to end: the electric definitions are loaded from a table whose
    only row overrides the cable table, and the facade is read. *)
Lemma DefinitionTable_get_override_or_default_witness :
  exists self log tables,
    EleDefinitions.__init__ sample_const
      (sample_gpf {[ "tablename_cable" := Some "custom_kabel" ]} [])
      (PyWorkspace sample_workspace) [] = (Ok self, log)
    /\ EleDefinitions.tables self = Ok tables
    /\ _EleTableNames.cable tables = Some "custom_kabel"
    /\ _EleTableNames.clamp tables = Some "ele_ds_klemme".
Proof.
  eexists _, _. 
  destruct (DefinitionTable_get_override_or_default
              {| items := {[ "tablename_cable" := Some "custom_kabel" ]};
                 _solution := "ele" |} "tablename_cable" None) as (_ & _ & H).
  destruct (H eq_refl eq_refl) as (tables & Ht & Hc & Hk).
  exists tables. split; [vm_compute; reflexivity|]. split; [exact Ht|]. split; assumption.
Defined.

(** C5: [fields.name_number] is ["name_nummer"] when the voltage table
    name resolved by [tables.sec_cable_voltage] (override key
    ['tablename_sec_cable_dense']) is ["eles_spannung"], and
    ["name_number"] for every other resolved value; nothing else of the
    definition table is read. *)
Theorem name_number_follows_voltage_table (d : DefinitionTable) :
  exists tables fields,
    EleDefinitions.tables d = Ok tables
    /\ EleDefinitions.fields d = Ok fields
    /\ _EleTableNames.sec_cable_voltage tables
       = DefinitionTable.get d "tablename_sec_cable_dense" (Some "eles_spannung")
    /\ (_EleTableNames.sec_cable_voltage tables = Some "eles_spannung" ->
        _EleFieldNames.name_number fields = Ok (Some "name_nummer"))
    /\ (_EleTableNames.sec_cable_voltage tables <> Some "eles_spannung" ->
        _EleFieldNames.name_number fields = Ok (Some "name_number"))
    /\ (forall d' : DefinitionTable,
          items d' !! "tablename_sec_cable_dense" = items d !! "tablename_sec_cable_dense" ->
          _EleFieldNames.name_number {| _def := d' |} = _EleFieldNames.name_number fields).
Proof.
  exists {| _def := d |}, {| _def := d |}.
  repeat split.
  - intros Hv. unfold _EleFieldNames.name_number. cbn.
    by rewrite bool_decide_eq_true_2.
  - intros Hv. unfold _EleFieldNames.name_number. cbn.
    by rewrite bool_decide_eq_false_2.
  - intros d' Hd'. unfold _EleFieldNames.name_number. cbn.
    unfold _EleTableNames.sec_cable_voltage, DefinitionTable.get. cbn.
    by rewrite Hd'.
Qed.

Lemma name_number_follows_voltage_table_witness :
  _EleFieldNames.name_number {| _def := {| items := {[ "tablename_cable" := Some "custom_kabel" ]};
                                            _solution := "ele" |} |} = Ok (Some "name_nummer")
  /\ _EleFieldNames.name_number
       {| _def := {| items := {[ "tablename_sec_cable_dense" := Some "eles_voltage" ]};
                     _solution := "ele" |} |} = Ok (Some "name_number").
Proof.
  split.
  - destruct (name_number_follows_voltage_table
                {| items := {[ "tablename_cable" := Some "custom_kabel" ]}; _solution := "ele" |})
      as (t & f & Ht & Hf & _ & H & _).
    injection Ht as <-. injection Hf as <-. apply H. vm_compute. reflexivity.
  - destruct (name_number_follows_voltage_table
                {| items := {[ "tablename_sec_cable_dense" := Some "eles_voltage" ]};
                   _solution := "ele" |})
      as (t & f & Ht & Hf & _ & _ & H & _).
    injection Ht as <-. injection Hf as <-. apply H. vm_compute. discriminate.
Defined.

Lemma init_valid_workspace (workspace : pyobj) (w : Workspace) (solution : string)
    (log : list io_event) :
  as_Workspace workspace = Some w ->
  DefinitionTable.__init__ K G workspace solution log =
    let table_path := make_path w (format1 (GNTABLE_SOLUTION_DEF K) solution) in
    let log' := (log ++ [MakePath (format1 (GNTABLE_SOLUTION_DEF K) solution)])
                  ++ [ReadTable table_path (GNFIELD_NAME K) [GNFIELD_VALUE K]] in
    match ValueLookup G table_path (GNFIELD_NAME K) (GNFIELD_VALUE K) with
    | Ok self =>
        if bool_decide (self = ∅)
        then (Raise (ValueError ("There are no definitions for the "
                                 +:+ upper solution +:+ " solution")), log')
        else (Ok {| items := self; _solution := lower solution |}, log')
    | Raise (RuntimeError _) =>
        (Raise (RuntimeError ("Failed to read GEONIS definition table for the '"
                              +:+ upper solution +:+ "' solution")), log')
    | Raise e => (Raise e, log')
    end.
Proof.
  intros Hw. unfold DefinitionTable.__init__, io_bind, io_lift, io_make_path,
    io_except_RuntimeError, io_emit, io_ret, io_raise, pass_if_instance.
  rewrite Hw. cbn.
  destruct (ValueLookup G _ _ _) as [self|[]]; try reflexivity.
  by destruct (bool_decide (self = ∅)).
Qed.

Lemma init_invalid_workspace (workspace : pyobj) (solution : string) (log : list io_event) :
  as_Workspace workspace = None ->
  DefinitionTable.__init__ K G workspace solution log =
    (Raise (ValueError "'DefinitionTable' requires a Workspace object"), log).
Proof.
  intros Hw. unfold DefinitionTable.__init__, io_bind, io_lift, pass_if_instance.
  by rewrite Hw.
Qed.

(** C6: when the definition table of the solution loads as an empty
    mapping, the constructor raises the [ValueError] that names the
    solution and returns no instance; hence every [DefinitionTable] that
    was constructed has at least one entry. *)
Theorem DefinitionTable_never_empty (workspace : pyobj) (solution : string)
    (log : list io_event) :
  (forall w : Workspace,
      as_Workspace workspace = Some w ->
      ValueLookup G (make_path w (format1 (GNTABLE_SOLUTION_DEF K) solution))
                  (GNFIELD_NAME K) (GNFIELD_VALUE K) = Ok ∅ ->
      fst (DefinitionTable.__init__ K G workspace solution log)
      = Raise (ValueError ("There are no definitions for the "
                           +:+ upper solution +:+ " solution")))
  /\ (forall (self : DefinitionTable) (log' : list io_event),
        DefinitionTable.__init__ K G workspace solution log = (Ok self, log') ->
        items self <> ∅ /\ exists k v, items self !! k = Some v).
Proof.
  split.
  - intros w Hw Hempty. rewrite (init_valid_workspace _ w) by done. cbn zeta.
    rewrite Hempty. by rewrite bool_decide_eq_true_2.
  - intros self log' Hinit.
    destruct (as_Workspace workspace) as [w|] eqn:Hw.
    + rewrite (init_valid_workspace _ w) in Hinit by done. cbn zeta in Hinit.
      destruct (ValueLookup G _ _ _) as [m|[]]; try discriminate.
      case_bool_decide as Hm; [discriminate|].
      injection Hinit as <- _. cbn. split; [done|].
      destruct (map_choose m Hm) as (k & v & Hkv). eauto.
    + rewrite init_invalid_workspace in Hinit by done. discriminate.
Qed.

(** C10: a facade (tables or fields view) built from anything but a
    [DefinitionTable] instance raises [ValueError] and no facade exists
    on which a property could be read; built from a [DefinitionTable] it
    always succeeds, and the reference to that table is all the facade
    holds. *)
Theorem facade_requires_DefinitionTable (definitions : pyobj) :
  (as_DefinitionTable definitions = None ->
     _EleTableNames.__init__ definitions
       = Raise (ValueError "'definitions' argument must be a DefinitionTable instance")
     /\ _EleFieldNames.__init__ definitions
       = Raise (ValueError "'definitions' argument must be a DefinitionTable instance"))
  /\ (forall d : DefinitionTable,
        as_DefinitionTable definitions = Some d ->
        _EleTableNames.__init__ definitions = Ok {| _def := d |}
        /\ _EleFieldNames.__init__ definitions = Ok {| _def := d |})
  /\ (forall f g : _Definition, _def f = _def g -> f = g).
Proof.
  split; [|split].
  - intros Hnone.
    unfold _EleTableNames.__init__, _EleFieldNames.__init__, _Definition.__init__.
    rewrite Hnone. by split.
  - intros d Hd.
    unfold _EleTableNames.__init__, _EleFieldNames.__init__, _Definition.__init__.
    rewrite Hd. by split.
  - intros [f] [g]. cbn. by intros ->.
Qed.

Lemma facade_requires_DefinitionTable_witness :
  is_ValueError (_EleTableNames.__init__ (PyText "ele"))
  /\ is_ValueError (_EleFieldNames.__init__ PyNone)
  /\ is_Ok (_EleFieldNames.__init__
              (PyDefinitionTable {| items := {[ "tablename_cable" := Some "custom_kabel" ]};
                                    _solution := "ele" |})).
Proof.
  split; [|split].
  - destruct (facade_requires_DefinitionTable (PyText "ele")) as (H & _ & _).
    destruct (H eq_refl) as [-> _]. exact I.
  - destruct (facade_requires_DefinitionTable PyNone) as (H & _ & _).
    destruct (H eq_refl) as [_ ->]. exact I.
  - destruct (facade_requires_DefinitionTable
                (PyDefinitionTable {| items := {[ "tablename_cable" := Some "custom_kabel" ]};
                                      _solution := "ele" |})) as (_ & H & _).
    destruct (H _ eq_refl) as [_ ->]. exact I.
Defined.

End Definitions.

Lemma DefinitionTable_never_empty_witness :
  fst (DefinitionTable.__init__ sample_const (sample_gpf ∅ [])
         (PyWorkspace sample_workspace) "ele" [])
  = Raise (ValueError "There are no definitions for the ELE solution").
Proof.
  destruct (DefinitionTable_never_empty sample_const (sample_gpf ∅ [])
              (PyWorkspace sample_workspace) "ele" []) as [H _].
  exact (H sample_workspace eq_refl eq_refl).
Defined.

(** ** The description field and the memoized language *)

Section Language.

Context (K : Const).

Lemma truthy_Some (v : value) :
  truthy v = true <-> exists s, v = Some s /\ s <> "".
Proof.
  destruct v as [s|]; cbn.
  - rewrite negb_true_iff, String.eqb_neq. split.
    + intros Hs. by exists s.
    + intros (s' & Heq & Hs). by injection Heq as ->.
  - split; [discriminate|]. intros (s & Heq & _). discriminate.
Qed.

Lemma description_of_fixed (lang : value) :
  _EleFieldNames.description_of K lang ∈ (description_fields K).
Proof.
  unfold _EleFieldNames.description_of, _EleFieldNames.description_names, description_fields.
  destruct lang as [code|]; [|set_solver].
  repeat (rewrite lookup_insert; case_decide; [set_solver|]).
  rewrite lookup_empty. set_solver.
Qed.

Lemma description_of_unknown (lang : value) :
  (forall code, lang = Some code -> code ∉ (language_codes K)) ->
  _EleFieldNames.description_of K lang = GNFIELD_DESC_DE K.
Proof.
  unfold _EleFieldNames.description_of, _EleFieldNames.description_names, language_codes.
  destruct lang as [code|]; [|done]. intros Hcode.
  specialize (Hcode code eq_refl).
  repeat (rewrite lookup_insert_ne; [|set_solver]).
  by rewrite lookup_empty.
Qed.

Lemma read_language_cached (get_language : nat -> value) (st : lang_state) :
  truthy (_gn_lang st) = true -> _EleFieldNames.read_language get_language st = st.
Proof. unfold _EleFieldNames.read_language. by intros ->. Qed.

Lemma descriptions_cached (get_language : nat -> value) (self : _Definition)
    (n : nat) (st : lang_state) :
  truthy (_gn_lang st) = true ->
  descriptions K get_language self n st
  = (replicate n (_EleFieldNames.description_of K (_gn_lang st)), st).
Proof.
  intros Hst. induction n as [|n IH]; [done|].
  cbn [descriptions]. unfold _EleFieldNames.description.
  rewrite read_language_cached by done. cbn zeta. by rewrite IH.
Qed.

(** C4, as the code has it: [description] is one of the five description
    field names, the German one when the language code it ends up with is
    none of the five codes or is still [None]. The provider is asked on
    an access exactly when the stored code is false ([None] or empty), and
    its answer is stored; once a true code is stored, no later access asks
    the provider again and all of them return the name of that code,
    whatever the provider would answer. *)
Theorem description_memoizes_language (get_language : nat -> value)
    (self : _Definition) (st : lang_state) :
  let d := fst (_EleFieldNames.description K get_language self st) in
  let st' := snd (_EleFieldNames.description K get_language self st) in
  d ∈ (description_fields K)
  /\ d = _EleFieldNames.description_of K (_gn_lang st')
  /\ ((forall code, _gn_lang st' = Some code -> code ∉ (language_codes K)) ->
      d = GNFIELD_DESC_DE K)
  /\ (truthy (_gn_lang st) = true -> st' = st)
  /\ (truthy (_gn_lang st) = false ->
      _gn_lang st' = get_language (get_language_calls st)
      /\ get_language_calls st' = S (get_language_calls st))
  /\ (truthy (_gn_lang st') = true ->
      forall (later : nat -> value) (n : nat),
        descriptions K later self n st' = (replicate n d, st'))
  /\ (truthy (get_language 0) = true ->
      forall n : nat,
        get_language_calls (snd (descriptions K get_language self (S n) lang_init)) = 1).
Proof.
  cbn zeta. unfold _EleFieldNames.description. cbn [fst snd].
  split; [|split; [|split; [|split; [|split; [|split]]]]].
  - apply description_of_fixed.
  - reflexivity.
  - apply description_of_unknown.
  - apply read_language_cached.
  - unfold _EleFieldNames.read_language. by intros ->.
  - intros Hst' later n. by apply descriptions_cached.
  - intros H0 n. cbn [descriptions]. unfold _EleFieldNames.description.
    unfold _EleFieldNames.read_language at 1 2. cbn.
    by rewrite descriptions_cached.
Qed.

End Language.

Lemma description_memoizes_language_witness :
  descriptions sample_const late_provider
    {| _def := {| items := ∅; _solution := "ele" |} |} 3
    {| _gn_lang := Some "fr"; get_language_calls := 1 |}
  = (["description_fr"; "description_fr"; "description_fr"],
     {| _gn_lang := Some "fr"; get_language_calls := 1 |}).
Proof.
  destruct (description_memoizes_language sample_const (fun _ => Some "fr")
              {| _def := {| items := ∅; _solution := "ele" |} |} lang_init)
    as (_ & _ & _ & _ & _ & H & _).
  exact (H eq_refl late_provider 3).
Defined.

(** C4, as stated, fails: a provider that has no answer on the first
    access is asked again on the second one, and the second access
    returns the name for the new answer. *)
Lemma description_provider_asked_twice :
  descriptions sample_const late_provider
    {| _def := {| items := ∅; _solution := "ele" |} |} 2 lang_init
  = (["description_de"; "description_en"],
     {| _gn_lang := Some "en"; get_language_calls := 2 |}).
Proof. vm_compute. reflexivity. Qed.

(** ** Relation *)

Section RelationRecord.

Lemma nonzero_iff_truthy (r : Relation) :
  Relation.__nonzero__ r = true <-> exists v, v ∈ Relation.to_tuple r /\ truthy v = true.
Proof.
  unfold Relation.__nonzero__. rewrite existsb_exists.
  split; intros (v & Hin & Hv); exists v; split; try done; by apply list_elem_of_In.
Qed.

Lemma new_seven (a b c d e f g : value) :
  Relation.__new__ [a; b; c; d; e; f; g]
  = Ok {| target_table := a; relate_table := b; source_field := c; target_field := d;
          relate_source := e; relate_target := f; relate_type := g |}.
Proof. reflexivity. Qed.

(** C9, as the code has it: the boolean conversion of a [Relation] is
    [any(self)]: false when all 7 fields are null (as for a record built
    without arguments), and true if and only if at least one of the 7
    fields is a text that is not empty, whichever field it is. *)
Theorem Relation_nonzero_iff_nonempty_field (r : Relation) :
  length (Relation.to_tuple r) = 7
  /\ ((forall v, v ∈ Relation.to_tuple r -> v = None) -> Relation.__nonzero__ r = false)
  /\ (Relation.__nonzero__ r = true <->
      exists s, s <> "" /\ Some s ∈ Relation.to_tuple r)
  /\ (exists r0, Relation.__new__ [] = Ok r0
                /\ Relation.to_tuple r0 = replicate 7 None
                /\ Relation.__nonzero__ r0 = false).
Proof.
  split; [reflexivity|]. split; [|split].
  - intros Hnull. apply not_true_is_false. intros Hr.
    apply nonzero_iff_truthy in Hr as (v & Hin & Hv).
    rewrite (Hnull v Hin) in Hv. discriminate.
  - rewrite nonzero_iff_truthy. split.
    + intros (v & Hin & Hv). apply truthy_Some in Hv as (s & -> & Hs). eauto.
    + intros (s & Hs & Hin). exists (Some s). split; [done|].
      apply truthy_Some. eauto.
  - eexists. split; [reflexivity|]. split; reflexivity.
Qed.

Lemma Relation_nonzero_iff_nonempty_field_witness :
  Relation.__nonzero__
    {| target_table := None; relate_table := None; source_field := None;
       target_field := None; relate_source := Some "REL_KABEL"; relate_target := None;
       relate_type := None |} = true
  /\ Relation.__nonzero__
       {| target_table := None; relate_table := None; source_field := None;
          target_field := None; relate_source := None; relate_target := None;
          relate_type := None |} = false.
Proof.
  split.
  - apply Relation_nonzero_iff_nonempty_field. exists "REL_KABEL".
    split; [discriminate|]. unfold Relation.to_tuple. cbn. set_solver.
  - apply Relation_nonzero_iff_nonempty_field. unfold Relation.to_tuple. cbn.
    intros v Hv.
    repeat (apply elem_of_cons in Hv; destruct Hv as [Hv|Hv]; [exact Hv|]).
    by apply elem_of_nil in Hv.
Defined.

(** C9, as stated, fails: a field that holds the empty text is not null,
    yet the record converts to false. *)
Lemma Relation_empty_text_field_is_false :
  Relation.__new__ [Some ""]
  = Ok {| target_table := Some ""; relate_table := None; source_field := None;
          target_field := None; relate_source := None; relate_target := None;
          relate_type := None |}
  /\ target_table {| target_table := Some ""; relate_table := None; source_field := None;
                     target_field := None; relate_source := None; relate_target := None;
                     relate_type := None |} <> None
  /\ Relation.__nonzero__
       {| target_table := Some ""; relate_table := None; source_field := None;
          target_field := None; relate_source := None; relate_target := None;
          relate_type := None |} = false.
Proof. split; [reflexivity|]. split; [discriminate|reflexivity]. Qed.

End RelationRecord.

(** ** RelationTable: processing of rows *)

Section RelationRows.

Context (K : Const) (reverse : bool).

Local Abbreviation selected := (RelationTable.select (RelationTable.src_table K reverse)
                                                 (RelationTable.fields K reverse)).
Local Abbreviation key_of := (RelationTable.key_of K reverse).
Local Abbreviation record_of := (RelationTable.record_of K reverse).

(** The hook on a row of the scan, by the formatted key. *)
Lemma process_row_selected (r : table_row) (self : RelationTable) :
  RelationTable._process_row (selected r) self =
    match key_of r with
    | None => Ok self
    | Some k =>
        if String.eqb k "" then Ok self
        else if bool_decide (is_Some (relations self !! k))
        then Ok {| relations := relations self;
                   warned := warned self
                             ++ [RelationWarning (RelationTable.multiple_message k (record_of r))] |}
        else Ok {| relations := <[k := record_of r]> (relations self);
                   warned := warned self |}
    end.
Proof.
  unfold RelationTable._process_row, RelationTable.select, RelationTable.key_of,
    RelationTable.record_of.
  cbn [map]. unfold RelationTable.fields. cbn [map].
  destruct (RelationTable.format_value (r (RelationTable.src_table K reverse))) as [k|];
    [|reflexivity].
  cbn [truthy]. rewrite negb_involutive. reflexivity.
Qed.

Lemma process_row_blank (r : table_row) (self : RelationTable) :
  truthy (key_of r) = false -> RelationTable._process_row (selected r) self = Ok self.
Proof.
  rewrite process_row_selected. destruct (key_of r) as [k|]; [|done].
  cbn. rewrite negb_false_iff. by intros ->.
Qed.

Lemma process_row_duplicate (r : table_row) (self : RelationTable) (k : string)
    (v : Relation) :
  key_of r = Some k -> k <> "" -> relations self !! k = Some v ->
  RelationTable._process_row (selected r) self
  = Ok {| relations := relations self;
          warned := warned self
                    ++ [RelationWarning (RelationTable.multiple_message k (record_of r))] |}.
Proof.
  intros Hk Hne Hv. rewrite process_row_selected, Hk.
  apply String.eqb_neq in Hne. rewrite Hne.
  rewrite bool_decide_eq_true_2; [done|]. by rewrite Hv.
Qed.

Lemma process_row_fresh (r : table_row) (self : RelationTable) (k : string) :
  key_of r = Some k -> k <> "" -> relations self !! k = None ->
  RelationTable._process_row (selected r) self
  = Ok {| relations := <[k := record_of r]> (relations self); warned := warned self |}.
Proof.
  intros Hk Hne Hv. rewrite process_row_selected, Hk.
  apply String.eqb_neq in Hne. rewrite Hne.
  rewrite bool_decide_eq_false_2; [done|]. rewrite Hv. by intros [? ?].
Qed.

(** The hook never raises on a row of the scan; it keeps the entries and
    the warnings that are there, and touches no key but the row's. *)
Lemma process_row_total (r : table_row) (self : RelationTable) :
  exists self',
    RelationTable._process_row (selected r) self = Ok self'
    /\ (forall k v, relations self !! k = Some v -> relations self' !! k = Some v)
    /\ (forall k, key_of r <> Some k -> relations self' !! k = relations self !! k)
    /\ (forall w, w ∈ warned self -> w ∈ warned self').
Proof.
  rewrite process_row_selected.
  destruct (key_of r) as [k|]; [|by eauto].
  destruct (String.eqb k ""); [by eauto|].
  case_bool_decide as Hin.
  - eexists. split; [reflexivity|]. cbn. split; [done|]. split; [done|].
    intros w Hw. apply elem_of_app. by left.
  - eexists. split; [reflexivity|]. cbn. split; [|split; [|done]].
    + intros k' v Hv. destruct (decide (k = k')) as [->|Hne].
      * exfalso. apply Hin. by rewrite Hv.
      * by rewrite lookup_insert_ne.
    + intros k' Hne. rewrite lookup_insert_ne; [done|]. congruence.
Qed.

(** The entries after a row depend on the entries before it only. *)
Lemma process_row_relations (r : table_row) (s1 s2 s1' s2' : RelationTable) :
  relations s1 = relations s2 ->
  RelationTable._process_row (selected r) s1 = Ok s1' ->
  RelationTable._process_row (selected r) s2 = Ok s2' ->
  relations s1' = relations s2'.
Proof.
  rewrite !process_row_selected. intros Heq.
  destruct (key_of r) as [k|]; [|congruence].
  destruct (String.eqb k ""); [congruence|].
  rewrite Heq. case_bool_decide; intros [= <-] [= <-]; cbn; congruence.
Qed.

Lemma process_rows_app (l1 l2 : list (list value)) (self : RelationTable) :
  RelationTable.process_rows (l1 ++ l2) self =
    match RelationTable.process_rows l1 self with
    | Ok self' => RelationTable.process_rows l2 self'
    | Raise e => Raise e
    end.
Proof.
  revert self. induction l1 as [|row l1 IH]; intros self; [done|].
  cbn. destruct (RelationTable._process_row row self); [apply IH|done].
Qed.

Lemma process_rows_total (rows : list table_row) (self : RelationTable) :
  exists self',
    RelationTable.process_rows (map selected rows) self = Ok self'
    /\ (forall k v, relations self !! k = Some v -> relations self' !! k = Some v)
    /\ (forall k, Forall (fun r => key_of r <> Some k) rows ->
                  relations self' !! k = relations self !! k)
    /\ (forall w, w ∈ warned self -> w ∈ warned self').
Proof.
  revert self. induction rows as [|r rows IH]; intros self.
  - exists self. by cbn.
  - destruct (process_row_total r self) as (s1 & Hs1 & Hkeep1 & Hother1 & Hw1).
    destruct (IH s1) as (s2 & Hs2 & Hkeep2 & Hother2 & Hw2).
    exists s2. cbn [map RelationTable.process_rows]. rewrite Hs1.
    split; [done|]. split; [by eauto|]. split; [|by eauto].
    intros k Hall. apply Forall_cons in Hall as [Hr Hrows].
    rewrite Hother2 by done. by apply Hother1.
Qed.

Lemma process_rows_relations (rows : list table_row) (s1 s2 s1' s2' : RelationTable) :
  relations s1 = relations s2 ->
  RelationTable.process_rows (map selected rows) s1 = Ok s1' ->
  RelationTable.process_rows (map selected rows) s2 = Ok s2' ->
  relations s1' = relations s2'.
Proof.
  revert s1 s2. induction rows as [|r rows IH]; intros s1 s2 Heq.
  - cbn. congruence.
  - cbn [map RelationTable.process_rows].
    destruct (process_row_total r s1) as (t1 & Ht1 & _).
    destruct (process_row_total r s2) as (t2 & Ht2 & _).
    rewrite Ht1, Ht2. apply IH. by eapply process_row_relations.
Qed.

End RelationRows.

(** ** RelationTable: the constructor *)

Section RelationLoad.

Context (K : Const) (G : Gpf).

Lemma filter_has_type (relation_type : string) (r : table_row) :
  RelationTable.has_type K relation_type r ->
  where_matches {| where_field := GNFIELD_REL_TYPE K; where_value := relation_type |} r = true.
Proof. intros Hr. unfold where_matches. by apply bool_decide_eq_true_2. Qed.

Lemma filter_keys (relation_type : string) (reverse : bool) (k : string)
    (rows : list table_row) :
  Forall (fun r => RelationTable.has_type K relation_type r ->
                   RelationTable.key_of K reverse r <> Some k) rows ->
  Forall (fun r => RelationTable.key_of K reverse r <> Some k)
    (List.filter (where_matches {| where_field := GNFIELD_REL_TYPE K;
                                   where_value := relation_type |}) rows).
Proof.
  intros Hall. apply List.Forall_forall. intros r Hr. apply filter_In in Hr as [Hin Hr].
  rewrite List.Forall_forall in Hall. apply (Hall r Hin).
  unfold where_matches in Hr. by apply bool_decide_eq_true_1 in Hr.
Qed.

(** The load never raises. *)
Lemma load_total (relation_type : string) (reverse : bool) (rows : list table_row) :
  exists self, RelationTable.load K relation_type reverse rows = Ok self.
Proof.
  unfold RelationTable.load, RelationTable.scan, RelationTable.scan_from.
  destruct (process_rows_total K reverse
              (List.filter (where_matches {| where_field := GNFIELD_REL_TYPE K;
                                             where_value := relation_type |}) rows)
              RelationTable.empty) as (self & Hself & _).
  by exists self.
Qed.

(** With a workspace, a known relation type and a readable table, the
    constructor is the load of the rows of the table. *)
Lemma init_loads (workspace : pyobj) (w : Workspace) (relation_type : string)
    (reverse : bool) (log : list io_event) (rows : list table_row) :
  as_Workspace workspace = Some w ->
  relation_type ∈ RelationTable.rel_types K ->
  table_rows G (make_path w (GNTABLE_RELATION_DEF K)) = inr rows ->
  fst (RelationTable.__init__ K G workspace relation_type reverse log)
  = RelationTable.load K relation_type reverse rows.
Proof.
  intros Hw Hty Hrows.
  unfold RelationTable.__init__, io_bind, io_lift, io_make_path, io_except_RuntimeError,
    RelationTable.Lookup__init__, io_emit, io_ret, io_raise, pass_if_instance, pass_if.
  rewrite Hw. cbn. rewrite bool_decide_eq_true_2 by done. cbn. rewrite Hrows.
  fold (RelationTable.load K relation_type reverse rows).
  by destruct (load_total relation_type reverse rows) as (self & ->).
Qed.

(** C7: for a relation type outside the 8 codes the constructor raises
    [ValueError] with the I/O log as it was: no path has been built and
    no table has been read. *)
Theorem RelationTable_rejects_unknown_type (workspace : pyobj) (relation_type : string)
    (reverse : bool) (log : list io_event) :
  relation_type ∉ RelationTable.rel_types K ->
  length (RelationTable.rel_types K) = 8
  /\ exists msg,
      RelationTable.__init__ K G workspace relation_type reverse log
      = (Raise (ValueError msg), log).
Proof.
  intros Hty. split; [reflexivity|].
  unfold RelationTable.__init__, io_bind, io_lift, pass_if_instance, pass_if.
  destruct (as_Workspace workspace) as [w|]; cbn.
  - rewrite bool_decide_eq_false_2 by done. cbn. eauto.
  - eauto.
Qed.

(** C8: a row whose key column is null, or empty once in upper case and
    stripped, leaves the lookup and the warnings as they are, and the
    constructor returns what it returns for the table without that row. *)
Theorem RelationTable_skips_blank_key (workspace : pyobj) (w : Workspace)
    (relation_type : string) (reverse : bool) (log : list io_event)
    (before after : list table_row) (r : table_row) :
  as_Workspace workspace = Some w ->
  relation_type ∈ RelationTable.rel_types K ->
  table_rows G (make_path w (GNTABLE_RELATION_DEF K)) = inr (before ++ r :: after) ->
  (r (RelationTable.src_table K reverse) = None
   \/ exists s, r (RelationTable.src_table K reverse) = Some s /\ strip (upper s) = "") ->
  (forall self : RelationTable,
      RelationTable._process_row
        (RelationTable.select (RelationTable.src_table K reverse)
                              (RelationTable.fields K reverse) r) self = Ok self)
  /\ fst (RelationTable.__init__ K G workspace relation_type reverse log)
     = RelationTable.load K relation_type reverse (before ++ after)
  /\ exists self, RelationTable.load K relation_type reverse (before ++ after) = Ok self.
Proof.
  intros Hw Hty Hrows Hblank.
  assert (truthy (RelationTable.key_of K reverse r) = false) as Hkey.
  { unfold RelationTable.key_of. destruct Hblank as [->|(s & -> & Hs)]; [done|].
    cbn. by rewrite Hs. }
  split; [|split].
  - intros self. by apply process_row_blank.
  - rewrite (init_loads _ w _ _ _ (before ++ r :: after)) by done.
    unfold RelationTable.load, RelationTable.scan, RelationTable.scan_from.
    rewrite !List.filter_app. cbn [List.filter].
    destruct (where_matches _ r); [|done].
    rewrite !map_app, !process_rows_app. cbn [map RelationTable.process_rows].
    destruct (RelationTable.process_rows _ RelationTable.empty) as [s1|]; [|done].
    by rewrite process_row_blank.
  - apply load_total.
Qed.

Lemma load_from_app (relation_type : string) (reverse : bool)
    (l1 l2 : list table_row) (self : RelationTable) :
  RelationTable.load_from K relation_type reverse (l1 ++ l2) self =
    match RelationTable.load_from K relation_type reverse l1 self with
    | Ok self' => RelationTable.load_from K relation_type reverse l2 self'
    | Raise e => Raise e
    end.
Proof.
  unfold RelationTable.load_from, RelationTable.scan_from.
  by rewrite List.filter_app, map_app, process_rows_app.
Qed.

Lemma load_from_cons (relation_type : string) (reverse : bool)
    (r : table_row) (rows : list table_row) (self : RelationTable) :
  RelationTable.has_type K relation_type r ->
  RelationTable.load_from K relation_type reverse (r :: rows) self =
    match RelationTable._process_row
            (RelationTable.select (RelationTable.src_table K reverse)
                                  (RelationTable.fields K reverse) r) self with
    | Ok self' => RelationTable.load_from K relation_type reverse rows self'
    | Raise e => Raise e
    end.
Proof.
  intros Hr. unfold RelationTable.load_from, RelationTable.scan_from.
  cbn [List.filter]. by rewrite filter_has_type.
Qed.

Lemma load_from_total (relation_type : string) (reverse : bool)
    (rows : list table_row) (self : RelationTable) :
  exists self',
    RelationTable.load_from K relation_type reverse rows self = Ok self'
    /\ (forall k v, relations self !! k = Some v -> relations self' !! k = Some v)
    /\ (forall k,
          Forall (fun r => RelationTable.has_type K relation_type r ->
                           RelationTable.key_of K reverse r <> Some k) rows ->
          relations self' !! k = relations self !! k)
    /\ (forall w, w ∈ warned self -> w ∈ warned self').
Proof.
  unfold RelationTable.load_from, RelationTable.scan_from.
  destruct (process_rows_total K reverse
              (List.filter (where_matches {| where_field := GNFIELD_REL_TYPE K;
                                             where_value := relation_type |}) rows)
              self) as (self' & Hself' & Hkeep & Hother & Hwarn).
  exists self'. split; [done|]. split; [done|]. split; [|done].
  intros k Hall. apply Hother. by apply filter_keys.
Qed.

Lemma load_from_relations (relation_type : string) (reverse : bool)
    (rows : list table_row) (s1 s2 s1' s2' : RelationTable) :
  relations s1 = relations s2 ->
  RelationTable.load_from K relation_type reverse rows s1 = Ok s1' ->
  RelationTable.load_from K relation_type reverse rows s2 = Ok s2' ->
  relations s1' = relations s2'.
Proof. unfold RelationTable.load_from, RelationTable.scan_from. apply process_rows_relations. Qed.

(** A row with a key that is not blank leaves an entry under its key:
    its own record when the key was free, the earlier one otherwise. *)
Lemma process_row_stores (reverse : bool) (r : table_row) (self : RelationTable)
    (k : string) :
  RelationTable.key_of K reverse r = Some k -> k <> "" ->
  exists self',
    RelationTable._process_row
      (RelationTable.select (RelationTable.src_table K reverse)
                            (RelationTable.fields K reverse) r) self = Ok self'
    /\ is_Some (relations self' !! k)
    /\ (relations self !! k = None ->
        relations self' !! k = Some (RelationTable.record_of K reverse r))
    /\ (forall w, w ∈ warned self -> w ∈ warned self').
Proof.
  intros Hk Hne. destruct (relations self !! k) as [v|] eqn:Hv.
  - eexists. split; [by eapply process_row_duplicate|]. cbn.
    split; [by rewrite Hv|]. split; [done|].
    intros w Hw. apply elem_of_app. by left.
  - eexists. split; [by eapply process_row_fresh|]. cbn.
    rewrite lookup_insert_eq. split; [by eexists|]. done.
Qed.

(** The load of a table in which the row [r] is the first one with its key. *)
Lemma load_first_row (relation_type : string) (reverse : bool)
    (before after : list table_row) (r : table_row) (k : string) :
  RelationTable.has_type K relation_type r ->
  RelationTable.key_of K reverse r = Some k -> k <> "" ->
  Forall (fun r' => RelationTable.has_type K relation_type r' ->
                    RelationTable.key_of K reverse r' <> Some k) before ->
  exists self,
    RelationTable.load K relation_type reverse (before ++ r :: after) = Ok self
    /\ relations self !! k = Some (RelationTable.record_of K reverse r).
Proof.
  intros Hty Hk Hne Hbefore.
  change (RelationTable.load K relation_type reverse (before ++ r :: after))
    with (RelationTable.load_from K relation_type reverse (before ++ r :: after)
            RelationTable.empty).
  rewrite load_from_app.
  destruct (load_from_total relation_type reverse before RelationTable.empty)
    as (s1 & -> & _ & Hfree & _).
  specialize (Hfree k Hbefore). cbn in Hfree. rewrite lookup_empty in Hfree.
  rewrite load_from_cons by done.
  destruct (process_row_stores reverse r s1 k Hk Hne) as (s2 & -> & _ & Hs2 & _).
  destruct (load_from_total relation_type reverse after s2) as (s3 & -> & Hkeep & _).
  exists s3. split; [done|]. apply Hkeep. by apply Hs2.
Qed.

Lemma relate_type_of_row (relation_type : string) (reverse : bool) (r : table_row) :
  RelationTable.has_type K relation_type r ->
  relate_type (RelationTable.record_of K reverse r) = Some (strip (upper relation_type)).
Proof.
  unfold RelationTable.has_type, RelationTable.record_of, RelationTable.fields.
  cbn. by intros ->.
Qed.

(** C3: when two rows of the relation type have the same key, not blank,
    the load does not raise; the second row leaves the lookup as it is
    and issues the [RelationWarning] "Source table '..' participates in
    multiple .. relationships"; the lookup is the one of the table
    without the second row, and the entry under the key is the record of
    the first row when no earlier row has that key. *)
Theorem RelationTable_first_row_wins (workspace : pyobj) (w : Workspace)
    (relation_type : string) (reverse : bool) (log : list io_event)
    (before between after : list table_row) (r1 r2 : table_row) (k : string) :
  as_Workspace workspace = Some w ->
  relation_type ∈ RelationTable.rel_types K ->
  table_rows G (make_path w (GNTABLE_RELATION_DEF K))
  = inr (before ++ r1 :: between ++ r2 :: after) ->
  RelationTable.has_type K relation_type r1 ->
  RelationTable.has_type K relation_type r2 ->
  RelationTable.key_of K reverse r1 = Some k ->
  RelationTable.key_of K reverse r2 = Some k ->
  k <> "" ->
  let warning :=
    RelationWarning ("Source table '" +:+ upper k +:+ "' participates in multiple "
                     +:+ strip (upper relation_type) +:+ " relationships") in
  exists self without,
    fst (RelationTable.__init__ K G workspace relation_type reverse log) = Ok self
    /\ RelationTable.load K relation_type reverse (before ++ r1 :: between ++ after)
       = Ok without
    /\ relations self = relations without
    /\ (Forall (fun r => RelationTable.has_type K relation_type r ->
                         RelationTable.key_of K reverse r <> Some k) before ->
        relations self !! k = Some (RelationTable.record_of K reverse r1))
    /\ warning ∈ warned self
    /\ (forall (st : RelationTable) (v : Relation),
          relations st !! k = Some v ->
          RelationTable._process_row
            (RelationTable.select (RelationTable.src_table K reverse)
                                  (RelationTable.fields K reverse) r2) st
          = Ok {| relations := relations st; warned := warned st ++ [warning] |}).
Proof.
  intros Hw Hty Hrows Ht1 Ht2 Hk1 Hk2 Hne warning.
  assert (RelationTable.multiple_message k (RelationTable.record_of K reverse r2)
          = "Source table '" +:+ upper k +:+ "' participates in multiple "
            +:+ strip (upper relation_type) +:+ " relationships") as Hmsg.
  { unfold RelationTable.multiple_message. by rewrite (relate_type_of_row relation_type). }
  assert (forall (st : RelationTable) (v : Relation),
             relations st !! k = Some v ->
             RelationTable._process_row
               (RelationTable.select (RelationTable.src_table K reverse)
                                     (RelationTable.fields K reverse) r2) st
             = Ok {| relations := relations st; warned := warned st ++ [warning] |}) as Hdup.
  { intros st v Hv. rewrite (process_row_duplicate K reverse r2 st k v) by done.
    by rewrite Hmsg. }
  rewrite (init_loads _ w _ _ _ _ Hw Hty Hrows).
  change (RelationTable.load K relation_type reverse) with
    (fun rows => RelationTable.load_from K relation_type reverse rows RelationTable.empty).
  cbn beta.
  rewrite !load_from_app.
  destruct (load_from_total relation_type reverse before RelationTable.empty)
    as (s1 & -> & _ & Hfree & _).
  rewrite !load_from_cons by done.
  destruct (process_row_stores reverse r1 s1 k Hk1 Hne) as (s2 & -> & [v Hv] & Hfirst & _).
  rewrite !load_from_app.
  destruct (load_from_total relation_type reverse between s2) as (s3 & -> & Hkeep3 & _).
  rewrite load_from_cons by done.
  rewrite (Hdup s3 v) by by apply Hkeep3.
  destruct (load_from_total relation_type reverse after
              {| relations := relations s3; warned := warned s3 ++ [warning] |})
    as (s5 & Hs5 & Hkeep5 & _ & Hwarn5).
  destruct (load_from_total relation_type reverse after s3) as (s5' & Hs5' & _).
  exists s5, s5'. rewrite Hs5, Hs5'.
  split; [done|]. split; [done|]. split; [|split; [|split]].
  - by apply (load_from_relations relation_type reverse after
                {| relations := relations s3; warned := warned s3 ++ [warning] |} s3).
  - intros Hbefore. apply Hkeep5. cbn. apply Hkeep3.
    apply Hfirst. rewrite (Hfree k Hbefore). apply lookup_empty.
  - apply Hwarn5. cbn. apply elem_of_app. right. apply list_elem_of_singleton. done.
  - exact Hdup.
Qed.

Lemma record_of_forward (r : table_row) :
  RelationTable.record_of K false r
  = {| target_table := RelationTable.format_value (r (GNFIELD_REL_TABLE_DST K));
       relate_table := RelationTable.format_value (r (GNFIELD_REL_TABLE_REL K));
       source_field := RelationTable.format_value (r (GNFIELD_REL_KEYFIELD_SRC K));
       target_field := RelationTable.format_value (r (GNFIELD_REL_KEYFIELD_DST K));
       relate_source := RelationTable.format_value (r (GNFIELD_REL_RELFIELD_SRC K));
       relate_target := RelationTable.format_value (r (GNFIELD_REL_RELFIELD_DST K));
       relate_type := RelationTable.format_value (r (GNFIELD_REL_TYPE K)) |}.
Proof. reflexivity. Qed.

Lemma record_of_reverse (r : table_row) :
  RelationTable.record_of K true r
  = {| target_table := RelationTable.format_value (r (GNFIELD_REL_TABLE_SRC K));
       relate_table := RelationTable.format_value (r (GNFIELD_REL_TABLE_REL K));
       source_field := RelationTable.format_value (r (GNFIELD_REL_KEYFIELD_DST K));
       target_field := RelationTable.format_value (r (GNFIELD_REL_KEYFIELD_SRC K));
       relate_source := RelationTable.format_value (r (GNFIELD_REL_RELFIELD_DST K));
       relate_target := RelationTable.format_value (r (GNFIELD_REL_RELFIELD_SRC K));
       relate_type := RelationTable.format_value (r (GNFIELD_REL_TYPE K)) |}.
Proof. reflexivity. Qed.

(** C2, as the code has it: texts are stored in upper case and stripped,
    rows with a blank key are skipped and the first row of a key wins.
    For a row of the requested relation type with source table A,
    destination table B, key fields X and Y and relation fields P and Q:
    with [reverse=False], when the formatted A is not blank and no
    earlier row has it as key, the lookup maps the formatted A to the
    record with [target_table] B, [source_field] X, [target_field] Y,
    [relate_source] P and [relate_target] Q, all formatted; with
    [reverse=True], when the formatted B is not blank and no earlier row
    has it as key, the lookup maps the formatted B to the record with
    [target_table] A, [source_field] Y, [target_field] X, [relate_source]
    Q and [relate_target] P, all formatted. [relate_table] and
    [relate_type] are the same in both directions. *)
Theorem RelationTable_reverse_swaps_roles (workspace : pyobj) (w : Workspace)
    (relation_type : string) (log : list io_event)
    (before after : list table_row) (r : table_row) :
  as_Workspace workspace = Some w ->
  relation_type ∈ RelationTable.rel_types K ->
  table_rows G (make_path w (GNTABLE_RELATION_DEF K)) = inr (before ++ r :: after) ->
  RelationTable.has_type K relation_type r ->
  let fmt := fun column => RelationTable.format_value (r column) in
  (forall k : string,
      fmt (GNFIELD_REL_TABLE_SRC K) = Some k -> k <> "" ->
      Forall (fun r' => RelationTable.has_type K relation_type r' ->
                        RelationTable.key_of K false r' <> Some k) before ->
      exists self,
        fst (RelationTable.__init__ K G workspace relation_type false log) = Ok self
        /\ relations self !! k
           = Some {| target_table := fmt (GNFIELD_REL_TABLE_DST K);
                     relate_table := fmt (GNFIELD_REL_TABLE_REL K);
                     source_field := fmt (GNFIELD_REL_KEYFIELD_SRC K);
                     target_field := fmt (GNFIELD_REL_KEYFIELD_DST K);
                     relate_source := fmt (GNFIELD_REL_RELFIELD_SRC K);
                     relate_target := fmt (GNFIELD_REL_RELFIELD_DST K);
                     relate_type := Some (strip (upper relation_type)) |})
  /\ (forall k : string,
        fmt (GNFIELD_REL_TABLE_DST K) = Some k -> k <> "" ->
        Forall (fun r' => RelationTable.has_type K relation_type r' ->
                          RelationTable.key_of K true r' <> Some k) before ->
        exists self,
          fst (RelationTable.__init__ K G workspace relation_type true log) = Ok self
          /\ relations self !! k
             = Some {| target_table := fmt (GNFIELD_REL_TABLE_SRC K);
                       relate_table := fmt (GNFIELD_REL_TABLE_REL K);
                       source_field := fmt (GNFIELD_REL_KEYFIELD_DST K);
                       target_field := fmt (GNFIELD_REL_KEYFIELD_SRC K);
                       relate_source := fmt (GNFIELD_REL_RELFIELD_DST K);
                       relate_target := fmt (GNFIELD_REL_RELFIELD_SRC K);
                       relate_type := Some (strip (upper relation_type)) |}).
Proof.
  intros Hw Hty Hrows Hr fmt.
  assert (fmt (GNFIELD_REL_TYPE K) = Some (strip (upper relation_type))) as Htype.
  { unfold fmt. unfold RelationTable.has_type in Hr. by rewrite Hr. }
  split; intros k Hk Hne Hbefore.
  - destruct (load_first_row relation_type false before after r k Hr Hk Hne Hbefore)
      as (self & Hload & Hself).
    exists self. rewrite (init_loads _ w _ _ _ _ Hw Hty Hrows). split; [done|].
    rewrite Hself, record_of_forward. fold (fmt (GNFIELD_REL_TYPE K)). by rewrite Htype.
  - destruct (load_first_row relation_type true before after r k Hr Hk Hne Hbefore)
      as (self & Hload & Hself).
    exists self. rewrite (init_loads _ w _ _ _ _ Hw Hty Hrows). split; [done|].
    rewrite Hself, record_of_reverse. fold (fmt (GNFIELD_REL_TYPE K)). by rewrite Htype.
Qed.

End RelationLoad.

(** *** The constructor on sample tables *)

Lemma relate_is_a_type : "relate" ∈ RelationTable.rel_types sample_const.
Proof. unfold RelationTable.rel_types. cbn. do 6 apply list_elem_of_further. apply list_elem_of_here. Qed.

Lemma kabel_is_no_type : "kabel" ∉ RelationTable.rel_types sample_const.
Proof.
  unfold RelationTable.rel_types. cbn. intros Hin.
  repeat (apply elem_of_cons in Hin; destruct Hin as [Hin|Hin]; [discriminate|]).
  by apply elem_of_nil in Hin.
Qed.

Lemma RelationTable_rejects_unknown_type_witness :
  exists msg,
    RelationTable.__init__ sample_const (sample_gpf ∅ [cable_route_row])
      (PyWorkspace sample_workspace) "kabel" false []
    = (Raise (ValueError msg), []).
Proof.
  apply (RelationTable_rejects_unknown_type sample_const (sample_gpf ∅ [cable_route_row])
           (PyWorkspace sample_workspace) "kabel" false []).
  exact kabel_is_no_type.
Defined.

Lemma RelationTable_skips_blank_key_witness :
  fst (RelationTable.__init__ sample_const (sample_gpf ∅ [blank_row; cable_route_row])
         (PyWorkspace sample_workspace) "relate" false [])
  = RelationTable.load sample_const "relate" false [cable_route_row].
Proof.
  apply (RelationTable_skips_blank_key sample_const
           (sample_gpf ∅ [blank_row; cable_route_row])
           (PyWorkspace sample_workspace) sample_workspace "relate" false []
           [] [cable_route_row] blank_row).
  - reflexivity.
  - exact relate_is_a_type.
  - reflexivity.
  - right. exists "   ". split; reflexivity.
Defined.

Lemma RelationTable_first_row_wins_witness :
  exists self,
    fst (RelationTable.__init__ sample_const
           (sample_gpf ∅ [cable_route_row; cable_pipe_row])
           (PyWorkspace sample_workspace) "relate" false []) = Ok self
    /\ relations self !! "ELE_KABEL"
       = Some (RelationTable.record_of sample_const false cable_route_row)
    /\ RelationWarning "Source table 'ELE_KABEL' participates in multiple RELATE relationships"
       ∈ warned self.
Proof.
  destruct (RelationTable_first_row_wins sample_const
              (sample_gpf ∅ [cable_route_row; cable_pipe_row])
              (PyWorkspace sample_workspace) sample_workspace "relate" false []
              [] [] [] cable_route_row cable_pipe_row "ELE_KABEL")
    as (self & without & Hinit & _ & _ & Hfirst & Hwarn & _).
  - reflexivity.
  - exact relate_is_a_type.
  - reflexivity.
  - reflexivity.
  - reflexivity.
  - reflexivity.
  - reflexivity.
  - discriminate.
  - exists self. split; [exact Hinit|]. split; [|exact Hwarn].
    apply Hfirst. constructor.
Defined.

Lemma RelationTable_reverse_swaps_roles_witness :
  (exists self,
      fst (RelationTable.__init__ sample_const (sample_gpf ∅ [cable_route_row])
             (PyWorkspace sample_workspace) "relate" false []) = Ok self
      /\ relations self !! "ELE_KABEL"
         = Some {| target_table := Some "ELE_TRASSE";
                   relate_table := Some "ELER_TRASSE_KABEL";
                   source_field := Some "GLOBALID";
                   target_field := Some "KABEL_REF";
                   relate_source := Some "REL_KABEL";
                   relate_target := Some "REL_TRASSE";
                   relate_type := Some "RELATE" |})
  /\ (exists self,
        fst (RelationTable.__init__ sample_const (sample_gpf ∅ [cable_route_row])
               (PyWorkspace sample_workspace) "relate" true []) = Ok self
        /\ relations self !! "ELE_TRASSE"
           = Some {| target_table := Some "ELE_KABEL";
                     relate_table := Some "ELER_TRASSE_KABEL";
                     source_field := Some "KABEL_REF";
                     target_field := Some "GLOBALID";
                     relate_source := Some "REL_TRASSE";
                     relate_target := Some "REL_KABEL";
                     relate_type := Some "RELATE" |}).
Proof.
  destruct (RelationTable_reverse_swaps_roles sample_const
              (sample_gpf ∅ [cable_route_row])
              (PyWorkspace sample_workspace) sample_workspace "relate" []
              [] [] cable_route_row eq_refl relate_is_a_type eq_refl eq_refl)
    as [Hforward Hreverse].
  split.
  - apply (Hforward "ELE_KABEL"); [reflexivity|discriminate|constructor].
  - apply (Hreverse "ELE_TRASSE"); [reflexivity|discriminate|constructor].
Defined.

(** C2, as stated, fails: the row of the cable table, whose names are in
    lower case in the table, yields no entry keyed by its source table
    name; the entry is keyed by the name in upper case, and its fields
    are in upper case too. Moreover a second row with the same formatted
    key and a row with a blank key yield no entry at all: the lookup of
    the three rows holds the record of the first row only. *)
Lemma RelationTable_key_is_not_source_name :
  (exists self,
      fst (RelationTable.__init__ sample_const (sample_gpf ∅ [cable_route_row])
             (PyWorkspace sample_workspace) "relate" false []) = Ok self
      /\ cable_route_row "TABLE_SRC" = Some "ele_kabel"
      /\ cable_route_row "TABLE_DST" = Some "ele_trasse"
      /\ relations self !! "ele_kabel" = None
      /\ relations self !! "ELE_KABEL"
         = Some {| target_table := Some "ELE_TRASSE";
                   relate_table := Some "ELER_TRASSE_KABEL";
                   source_field := Some "GLOBALID";
                   target_field := Some "KABEL_REF";
                   relate_source := Some "REL_KABEL";
                   relate_target := Some "REL_TRASSE";
                   relate_type := Some "RELATE" |})
  /\ (exists self,
        fst (RelationTable.__init__ sample_const
               (sample_gpf ∅ [cable_route_row; cable_pipe_row; blank_row])
               (PyWorkspace sample_workspace) "relate" false []) = Ok self
        /\ cable_pipe_row "TABLE_DST" = Some "ele_rohr"
        /\ relations self
           = {[ "ELE_KABEL" := {| target_table := Some "ELE_TRASSE";
                                  relate_table := Some "ELER_TRASSE_KABEL";
                                  source_field := Some "GLOBALID";
                                  target_field := Some "KABEL_REF";
                                  relate_source := Some "REL_KABEL";
                                  relate_target := Some "REL_TRASSE";
                                  relate_type := Some "RELATE" |} ]}).
Proof.
  split.
  - eexists. split; [vm_compute; reflexivity|].
    split; [reflexivity|]. split; [reflexivity|].
    split; vm_compute; reflexivity.
  - eexists. split; [vm_compute; reflexivity|].
    split; [reflexivity|]. vm_compute. reflexivity.
Qed.

(** *** The text functions on samples *)

Example upper_strip_sample : strip (upper "  ele_Kabel ") = "ELE_KABEL".
Proof. reflexivity. Qed.

Example strip_keeps_inner_blanks : strip " a b " = "a b".
Proof. reflexivity. Qed.

Example strip_blank_sample : strip (upper "   ") = "".
Proof. reflexivity. Qed.

Example lower_sample : lower "ELE" = "ele".
Proof. reflexivity. Qed.

Example truthy_samples :
  truthy None = false /\ truthy (Some "") = false /\ truthy (Some "de") = true.
Proof. repeat split. Qed.

(** * Further properties *)

(** ** Texts *)

Section Texts.

Lemma upper_char_idem (c : ascii) : upper_char (upper_char c) = upper_char c.
Proof. destruct c as [[] [] [] [] [] [] [] []]; reflexivity. Qed.

Lemma isspace_upper_char (c : ascii) : isspace (upper_char c) = isspace c.
Proof. destruct c as [[] [] [] [] [] [] [] []]; reflexivity. Qed.

Lemma upper_idem (s : string) : upper (upper s) = upper s.
Proof.
  unfold upper. induction s as [|c s IH]; [done|].
  cbn [map_chars]. by rewrite upper_char_idem, IH.
Qed.

Lemma append_cons (c : ascii) (s t : string) : String c s +:+ t = String c (s +:+ t).
Proof. reflexivity. Qed.

Lemma append_nil_l (s : string) : "" +:+ s = s.
Proof. reflexivity. Qed.

Lemma upper_append (s t : string) : upper (s +:+ t) = upper s +:+ upper t.
Proof.
  unfold upper. induction s as [|c s IH]; [done|].
  rewrite append_cons. cbn [map_chars]. by rewrite IH, append_cons.
Qed.

Lemma append_nil_r (s : string) : s +:+ "" = s.
Proof. induction s as [|c s IH]; [done|]. by rewrite append_cons, IH. Qed.

Lemma append_assoc (s t u : string) : (s +:+ t) +:+ u = s +:+ (t +:+ u).
Proof. induction s as [|c s IH]; [done|]. by rewrite !append_cons, IH. Qed.

Lemma rev_app_append (s t : string) : String.rev_app s t = String.rev s +:+ t.
Proof.
  unfold String.rev. revert t. induction s as [|c s IH]; intros t; [done|].
  cbn [String.rev_app]. rewrite (IH (String c "")), IH.
  by rewrite append_assoc, append_cons, append_nil_l.
Qed.

Lemma rev_cons (c : ascii) (s : string) :
  String.rev (String c s) = String.rev s +:+ String c "".
Proof. unfold String.rev at 1. cbn [String.rev_app]. apply rev_app_append. Qed.

Lemma rev_append (s t : string) :
  String.rev (s +:+ t) = String.rev t +:+ String.rev s.
Proof.
  induction s as [|c s IH].
  - by rewrite append_nil_l, append_nil_r.
  - by rewrite append_cons, !rev_cons, IH, append_assoc.
Qed.

Lemma rev_involutive (s : string) : String.rev (String.rev s) = s.
Proof.
  induction s as [|c s IH]; [done|].
  by rewrite rev_cons, rev_append, IH.
Qed.

Lemma rev_upper (s : string) : String.rev (upper s) = upper (String.rev s).
Proof.
  induction s as [|c s IH]; [done|].
  change (upper (String c s)) with (String (upper_char c) (upper s)).
  by rewrite !rev_cons, IH, upper_append.
Qed.

Lemma lstrip_upper (s : string) : lstrip (upper s) = upper (lstrip s).
Proof.
  induction s as [|c s IH]; [done|].
  change (upper (String c s)) with (String (upper_char c) (upper s)).
  cbn [lstrip]. rewrite isspace_upper_char. by destruct (isspace c).
Qed.

Lemma strip_upper (s : string) : strip (upper s) = upper (strip s).
Proof.
  unfold strip, rstrip. by rewrite lstrip_upper, rev_upper, lstrip_upper, rev_upper.
Qed.

Lemma lstrip_idem (s : string) : lstrip (lstrip s) = lstrip s.
Proof.
  induction s as [|c s IH]; [done|].
  cbn [lstrip]. destruct (isspace c) eqn:Hc; [done|]. cbn [lstrip]. by rewrite Hc.
Qed.

Lemma lstrip_snoc (s : string) (c : ascii) :
  lstrip (s +:+ String c "")
  = if String.eqb (lstrip s) "" then (if isspace c then "" else String c "")
    else lstrip s +:+ String c "".
Proof.
  induction s as [|a s IH].
  - rewrite append_nil_l. cbn. by destruct (isspace c).
  - rewrite append_cons. cbn [lstrip]. destruct (isspace a); [done|]. reflexivity.
Qed.

Lemma rev_eq_nil (s : string) : String.rev s = "" -> s = "".
Proof. intros Hs. by rewrite <- (rev_involutive s), Hs. Qed.

(** [rstrip] from the left: a leading blank goes only when nothing but
    blanks follows. *)
Lemma rstrip_cons (c : ascii) (s : string) :
  rstrip (String c s)
  = if String.eqb (rstrip s) "" && isspace c then "" else String c (rstrip s).
Proof.
  unfold rstrip. rewrite rev_cons, lstrip_snoc.
  destruct (String.eqb_spec (lstrip (String.rev s)) "") as [Hnil|Hne].
  - rewrite Hnil. cbn. by destruct (isspace c).
  - destruct (String.eqb_spec (String.rev (lstrip (String.rev s))) "") as [Hrev|_].
    + by apply rev_eq_nil in Hrev.
    + cbn. by rewrite rev_append.
Qed.

Lemma lstrip_rstrip (s : string) : lstrip (rstrip s) = rstrip (lstrip s).
Proof.
  induction s as [|c s IH]; [done|].
  rewrite rstrip_cons. cbn [lstrip].
  destruct (isspace c) eqn:Hc.
  - rewrite <- IH. destruct (String.eqb_spec (rstrip s) "") as [->|_]; [done|].
    cbn. by rewrite Hc.
  - rewrite andb_false_r, rstrip_cons, Hc, andb_false_r. cbn. by rewrite Hc.
Qed.

Lemma rstrip_idem (s : string) : rstrip (rstrip s) = rstrip s.
Proof. unfold rstrip. by rewrite rev_involutive, lstrip_idem. Qed.

Lemma strip_idem (s : string) : strip (strip s) = strip s.
Proof.
  unfold strip. by rewrite (lstrip_rstrip (lstrip s)), lstrip_idem, rstrip_idem.
Qed.

Lemma format_text_idem (s : string) : strip (upper (strip (upper s))) = strip (upper s).
Proof.
  by rewrite (strip_upper s), upper_idem, (strip_upper (strip s)), strip_idem.
Qed.

Lemma format_text_upper (s : string) : upper (strip (upper s)) = strip (upper s).
Proof. by rewrite <- strip_upper, upper_idem. Qed.

Lemma format_text_strip (s : string) : strip (strip (upper s)) = strip (upper s).
Proof. apply strip_idem. Qed.

Lemma format_value_idem (v : value) :
  RelationTable.format_value (RelationTable.format_value v) = RelationTable.format_value v.
Proof. destruct v as [s|]; [|done]. cbn. by rewrite format_text_idem. Qed.

End Texts.

(** ** The catalogue of the facades *)

Section Catalogue.

Lemma catalogue_reads :
  Forall (fun e : string * string * (_Definition -> value) =>
            forall self, e.2 self = DefinitionTable.get (_def self) e.1.1 (Some e.1.2))
         (table_names ++ field_names).
Proof.
  unfold table_names, field_names. cbn [app].
  repeat (apply Forall_cons; split; [intros self; reflexivity|]).
  apply Forall_nil_2.
Qed.

Lemma catalogue_keys_distinct : NoDup (map (fun e => e.1.1) (table_names ++ field_names)).
Proof.
  apply (bool_decide_unpack (NoDup (map (fun e => e.1.1) (table_names ++ field_names)))).
  vm_compute. exact I.
Qed.

Lemma get_with_override (d : DefinitionTable) (key : string) (v default : value) :
  DefinitionTable.get (with_override key v d) key default = v.
Proof.
  unfold DefinitionTable.get, with_override. cbn. by rewrite lookup_insert_eq.
Qed.

Lemma get_with_override_ne (d : DefinitionTable) (key key' : string) (v default : value) :
  key' <> key ->
  DefinitionTable.get (with_override key v d) key' default
  = DefinitionTable.get d key' default.
Proof.
  intros Hne. unfold DefinitionTable.get, with_override. cbn.
  by rewrite lookup_insert_ne.
Qed.

(** X1: the 72 properties that read one key each read a key of their own: a
    row for the key of a property sets that property to the value of the
    row and changes no other of them; without a row for its key a
    property is its default; and [name_number] changes only with the row
    of the voltage table. *)
Theorem facade_overrides_are_independent (d : DefinitionTable) (key default : string)
    (prop : _Definition -> value) (v : value) :
  (key, default, prop) ∈ table_names ++ field_names ->
  length (table_names ++ field_names) = 72
  /\ NoDup (map (fun e => e.1.1) (table_names ++ field_names))
  /\ prop {| _def := with_override key v d |} = v
  /\ (items d !! key = None -> prop {| _def := d |} = Some default)
  /\ (forall (key' default' : string) (prop' : _Definition -> value),
        (key', default', prop') ∈ table_names ++ field_names ->
        key' <> key ->
        prop' {| _def := with_override key v d |} = prop' {| _def := d |})
  /\ (key <> "tablename_sec_cable_dense" ->
      _EleFieldNames.name_number {| _def := with_override key v d |}
      = _EleFieldNames.name_number {| _def := d |}).
Proof.
  intros Hin.
  pose proof catalogue_reads as Hreads. rewrite Forall_forall in Hreads.
  split; [reflexivity|]. split; [apply catalogue_keys_distinct|].
  split; [|split; [|split]].
  - rewrite (Hreads _ Hin). cbn. apply get_with_override.
  - intros Hnone. rewrite (Hreads _ Hin). cbn.
    unfold DefinitionTable.get. by rewrite Hnone.
  - intros key' default' prop' Hin' Hne.
    rewrite !(Hreads _ Hin'). cbn. by apply get_with_override_ne.
  - intros Hne. unfold _EleFieldNames.name_number. cbn.
    unfold _EleTableNames.sec_cable_voltage. cbn.
    by rewrite get_with_override_ne.
Qed.

Lemma facade_overrides_are_independent_witness :
  _EleTableNames.cable
    {| _def := with_override "tablename_cable" (Some "custom_kabel")
                 {| items := {[ "tablename_pipe" := Some "custom_rohr" ]};
                    _solution := "ele" |} |} = Some "custom_kabel"
  /\ _EleTableNames.pipe
       {| _def := with_override "tablename_cable" (Some "custom_kabel")
                    {| items := {[ "tablename_pipe" := Some "custom_rohr" ]};
                       _solution := "ele" |} |} = Some "custom_rohr".
Proof.
  assert (("tablename_cable", "ele_kabel", _EleTableNames.cable)
          ∈ table_names ++ field_names) as Hcable.
  { apply list_elem_of_further, list_elem_of_here. }
  destruct (facade_overrides_are_independent
              {| items := {[ "tablename_pipe" := Some "custom_rohr" ]}; _solution := "ele" |}
              "tablename_cable" "ele_kabel" _EleTableNames.cable (Some "custom_kabel") Hcable)
    as (_ & _ & Hset & _ & Hother & _).
  split; [exact Hset|].
  rewrite (Hother "tablename_pipe" "ele_rohr" _EleTableNames.pipe).
  - reflexivity.
  - do 17 apply list_elem_of_further. apply list_elem_of_here.
  - discriminate.
Defined.

End Catalogue.

(** ** The constructors of the definition tables *)

Section Constructors.

Context (K : Const) (G : Gpf).

Lemma definition_init_log (workspace : pyobj) (w : Workspace) (solution : string)
    (log : list io_event) :
  as_Workspace workspace = Some w ->
  snd (DefinitionTable.__init__ K G workspace solution log)
  = log ++ [MakePath (format1 (GNTABLE_SOLUTION_DEF K) solution);
            ReadTable (make_path w (format1 (GNTABLE_SOLUTION_DEF K) solution))
                      (GNFIELD_NAME K) [GNFIELD_VALUE K]].
Proof.
  intros Hw. rewrite (init_valid_workspace K G workspace w) by done. cbn zeta.
  rewrite <- app_assoc. cbn [app].
  destruct (ValueLookup G _ _ _) as [m|[]]; try reflexivity.
  by destruct (bool_decide (m = ∅)).
Qed.

(** X2: the outcomes of [DefinitionTable.__init__]. Without a workspace it
    raises [ValueError] and does no I/O. With one it builds the path of
    the definition table from the solution as it is given and reads that
    table once. A [RuntimeError] of the read is replaced by one that
    names the solution in upper case, any other exception passes
    unchanged, and a mapping that is not empty becomes the instance as it
    was read, with the solution in lower case. *)
Theorem DefinitionTable_init_outcomes (workspace : pyobj) (solution : string)
    (log : list io_event) :
  (as_Workspace workspace = None ->
   DefinitionTable.__init__ K G workspace solution log
   = (Raise (ValueError "'DefinitionTable' requires a Workspace object"), log))
  /\ (forall w : Workspace,
        as_Workspace workspace = Some w ->
        let name := format1 (GNTABLE_SOLUTION_DEF K) solution in
        let read := ValueLookup G (make_path w name) (GNFIELD_NAME K) (GNFIELD_VALUE K) in
        snd (DefinitionTable.__init__ K G workspace solution log)
        = log ++ [MakePath name;
                  ReadTable (make_path w name) (GNFIELD_NAME K) [GNFIELD_VALUE K]]
        /\ (forall e, read = Raise (RuntimeError e) ->
                      fst (DefinitionTable.__init__ K G workspace solution log)
                      = Raise (RuntimeError
                                 ("Failed to read GEONIS definition table for the '"
                                  +:+ upper solution +:+ "' solution")))
        /\ (forall e, read = Raise e -> (forall msg, e <> RuntimeError msg) ->
                      fst (DefinitionTable.__init__ K G workspace solution log) = Raise e)
        /\ (forall m, read = Ok m -> m <> ∅ ->
                      fst (DefinitionTable.__init__ K G workspace solution log)
                      = Ok {| items := m; _solution := lower solution |})).
Proof.
  split; [apply init_invalid_workspace|].
  intros w Hw name read. split; [by apply definition_init_log|].
  rewrite (init_valid_workspace K G workspace w) by done. cbn zeta.
  fold name. fold read.
  split; [|split].
  - by intros e ->.
  - intros e -> Hne. destruct e; try reflexivity. by destruct (Hne msg).
  - intros m -> Hm. by rewrite bool_decide_eq_false_2.
Qed.

(** X3: a constructed [EleDefinitions] is the definition table of the
    electric solution as it was read: its solution is the electric code
    in lower case, both facades can be built on it and hold this very
    table, and nothing but the two I/O steps of the constructor was done. *)
Theorem EleDefinitions_serves_both_facades (workspace : pyobj) (log log' : list io_event)
    (self : DefinitionTable) :
  EleDefinitions.__init__ K G workspace log = (Ok self, log') ->
  DefinitionTable.solution self = lower (GNMEDIA_ELECTRIC K)
  /\ EleDefinitions.tables self = Ok {| _def := self |}
  /\ EleDefinitions.fields self = Ok {| _def := self |}
  /\ exists w : Workspace,
      as_Workspace workspace = Some w
      /\ ValueLookup G (make_path w (format1 (GNTABLE_SOLUTION_DEF K) (GNMEDIA_ELECTRIC K)))
                     (GNFIELD_NAME K) (GNFIELD_VALUE K) = Ok (items self)
      /\ log' = log ++ [MakePath (format1 (GNTABLE_SOLUTION_DEF K) (GNMEDIA_ELECTRIC K));
                        ReadTable (make_path w (format1 (GNTABLE_SOLUTION_DEF K)
                                                        (GNMEDIA_ELECTRIC K)))
                                  (GNFIELD_NAME K) [GNFIELD_VALUE K]].
Proof.
  unfold EleDefinitions.__init__. intros Hinit.
  destruct (as_Workspace workspace) as [w|] eqn:Hw.
  - pose proof (definition_init_log workspace w (GNMEDIA_ELECTRIC K) log Hw) as Hlog.
    rewrite Hinit in Hlog. cbn in Hlog.
    rewrite (init_valid_workspace K G workspace w) in Hinit by done. cbn zeta in Hinit.
    destruct (ValueLookup G _ _ _) as [m|[]] eqn:Hread; try discriminate.
    case_bool_decide; [discriminate|]. injection Hinit as <- _.
    split; [reflexivity|]. split; [reflexivity|]. split; [reflexivity|].
    exists w. by rewrite Hread.
  - rewrite init_invalid_workspace in Hinit by done. discriminate.
Qed.

End Constructors.

Lemma DefinitionTable_init_outcomes_witness :
  DefinitionTable.__init__ sample_const (sample_gpf ∅ []) PyNone "ele" []
  = (Raise (ValueError "'DefinitionTable' requires a Workspace object"), [])
  /\ fst (DefinitionTable.__init__ sample_const
            (sample_gpf {[ "tablename_cable" := Some "custom_kabel" ]} [])
            (PyWorkspace sample_workspace) "Ele" [])
     = Ok {| items := {[ "tablename_cable" := Some "custom_kabel" ]}; _solution := "ele" |}.
Proof.
  split.
  - apply (DefinitionTable_init_outcomes sample_const (sample_gpf ∅ []) PyNone "ele" []).
    reflexivity.
  - destruct (DefinitionTable_init_outcomes sample_const
                (sample_gpf {[ "tablename_cable" := Some "custom_kabel" ]} [])
                (PyWorkspace sample_workspace) "Ele" []) as [_ H].
    destruct (H sample_workspace eq_refl) as (_ & _ & _ & Hok).
    apply Hok; [reflexivity|]. apply insert_non_empty.
Defined.

Lemma EleDefinitions_serves_both_facades_witness :
  exists self,
    EleDefinitions.tables self = Ok {| _def := self |}
    /\ DefinitionTable.solution self = "ele".
Proof.
  exists {| items := {[ "tablename_cable" := Some "custom_kabel" ]}; _solution := "ele" |}.
  destruct (EleDefinitions_serves_both_facades sample_const
              (sample_gpf {[ "tablename_cable" := Some "custom_kabel" ]} [])
              (PyWorkspace sample_workspace) []
              [MakePath "GNELE_DEFINITION"; ReadTable "geonis.gdb/GNELE_DEFINITION" "NAME" ["VALUE"]]
              {| items := {[ "tablename_cable" := Some "custom_kabel" ]}; _solution := "ele" |})
    as (Hsol & Htables & _).
  - vm_compute. reflexivity.
  - split; [exact Htables|exact Hsol].
Defined.

(** ** The language codes and repeated accesses *)

Section Accesses.

Context (K : Const).

Lemma description_of_italian : 
  _EleFieldNames.description_of K (Some (GN_LANG_IT K)) = GNFIELD_DESC_IT K.
Proof.
  unfold _EleFieldNames.description_of, _EleFieldNames.description_names.
  by rewrite lookup_insert_eq.
Qed.

(** X4: when the five language codes are pairwise distinct, [description]
    maps each code to the description field of its language; whatever
    the codes are, the Italian code gives the Italian field (the last
    entry of the dictionary wins) and [None] gives the German one. *)
Theorem description_maps_each_code :
  (NoDup (language_codes K) ->
   Forall2 (fun code name => _EleFieldNames.description_of K (Some code) = name)
           (language_codes K) (description_fields K))
  /\ _EleFieldNames.description_of K (Some (GN_LANG_IT K)) = GNFIELD_DESC_IT K
  /\ _EleFieldNames.description_of K None = GNFIELD_DESC_DE K.
Proof.
  split; [|split; [apply description_of_italian|reflexivity]].
  unfold language_codes, description_fields. intros Hnd.
  destruct (proj1 (NoDup_cons _ _) Hnd) as [Hc Hnd1].
  destruct (proj1 (NoDup_cons _ _) Hnd1) as [Hd Hnd2].
  destruct (proj1 (NoDup_cons _ _) Hnd2) as [He Hnd3].
  destruct (proj1 (NoDup_cons _ _) Hnd3) as [Hf _].
  apply not_elem_of_cons in Hc as [Hcd Hc]. apply not_elem_of_cons in Hc as [Hce Hc].
  apply not_elem_of_cons in Hc as [Hcf Hc]. apply not_elem_of_cons in Hc as [Hci _].
  apply not_elem_of_cons in Hd as [Hde Hd]. apply not_elem_of_cons in Hd as [Hdf Hd].
  apply not_elem_of_cons in Hd as [Hdi _].
  apply not_elem_of_cons in He as [Hef He]. apply not_elem_of_cons in He as [Hei _].
  apply not_elem_of_cons in Hf as [Hfi _].
  unfold _EleFieldNames.description_of, _EleFieldNames.description_names.
  repeat constructor.
  - rewrite !lookup_insert_ne by congruence. by rewrite lookup_insert_eq.
  - rewrite !(lookup_insert_ne _ _ (GN_LANG_DE K)) by congruence. by rewrite lookup_insert_eq.
  - rewrite !(lookup_insert_ne _ _ (GN_LANG_EN K)) by congruence. by rewrite lookup_insert_eq.
  - rewrite !(lookup_insert_ne _ _ (GN_LANG_FR K)) by congruence. by rewrite lookup_insert_eq.
  - by rewrite lookup_insert_eq.
Qed.

Lemma descriptions_app (get_language : nat -> value) (self : _Definition)
    (a b : nat) (st : lang_state) :
  descriptions K get_language self (a + b) st
  = ((descriptions K get_language self a st).1
       ++ (descriptions K get_language self b (descriptions K get_language self a st).2).1,
     (descriptions K get_language self b (descriptions K get_language self a st).2).2).
Proof.
  revert st. induction a as [|a IH]; intros st.
  - cbn. by destruct (descriptions K get_language self b st).
  - cbn [descriptions Nat.add]. unfold _EleFieldNames.description.
    rewrite IH.
    destruct (descriptions K get_language self a _) as [l1 st1]. cbn.
    by destruct (descriptions K get_language self b st1).
Qed.

(** While the provider has no true answer every access asks it. *)
Lemma descriptions_unanswered (get_language : nat -> value) (self : _Definition)
    (n : nat) (st : lang_state) :
  truthy (_gn_lang st) = false ->
  (forall i, i < n -> truthy (get_language (get_language_calls st + i)) = false) ->
  descriptions K get_language self n st
  = (map (fun i => _EleFieldNames.description_of K
                     (get_language (get_language_calls st + i))) (seq 0 n),
     match n with
     | 0 => st
     | S m => {| _gn_lang := get_language (get_language_calls st + m);
                 get_language_calls := get_language_calls st + S m |}
     end).
Proof.
  revert st. induction n as [|n IH]; intros st Hst Hgl; [done|].
  cbn [descriptions]. unfold _EleFieldNames.description, _EleFieldNames.read_language.
  rewrite Hst. cbn [_gn_lang].
  rewrite IH.
  - cbn [_gn_lang get_language_calls seq map]. rewrite Nat.add_0_r. f_equal.
    + f_equal. rewrite <- seq_shift, map_map. apply map_ext. intros i.
      f_equal. f_equal. lia.
    + destruct n as [|m]; (f_equal; [f_equal; lia|lia]).
  - cbn. specialize (Hgl 0 ltac:(lia)). by rewrite Nat.add_0_r in Hgl.
  - cbn. intros i Hi. replace (S (get_language_calls st + i))
      with (get_language_calls st + S i) by lia. apply Hgl. lia.
Qed.

(** X5: in a fresh process, when the provider first gives a true answer on
    its call number [m], the first [m] accesses each ask it once and
    return the name for the false answer they got, the next access asks
    for the last time, and all later accesses return the name of that
    answer: [m + 1] calls in all, however many accesses follow. *)
Theorem description_asks_until_answered (get_language : nat -> value)
    (self : _Definition) (m n : nat) :
  (forall i, i < m -> truthy (get_language i) = false) ->
  truthy (get_language m) = true ->
  descriptions K get_language self (m + S n) lang_init
  = (map (fun i => _EleFieldNames.description_of K (get_language i)) (seq 0 m)
       ++ replicate (S n) (_EleFieldNames.description_of K (get_language m)),
     {| _gn_lang := get_language m; get_language_calls := S m |}).
Proof.
  intros Hfalse Htrue. rewrite descriptions_app.
  rewrite (descriptions_unanswered get_language self m lang_init) by done.
  cbn [fst snd].
  assert (forall st, truthy (_gn_lang st) = false -> get_language_calls st = m ->
                     descriptions K get_language self (S n) st
                     = (replicate (S n) (_EleFieldNames.description_of K (get_language m)),
                        {| _gn_lang := get_language m; get_language_calls := S m |}))
    as Hlast.
  { intros st Hst Hcalls. cbn [descriptions].
    unfold _EleFieldNames.description, _EleFieldNames.read_language.
    rewrite Hst, Hcalls. cbn [_gn_lang].
    by rewrite descriptions_cached. }
  rewrite Hlast; [done| |].
  - destruct m as [|m']; [done|]. cbn. apply Hfalse. lia.
  - by destruct m.
Qed.

(** X6: a provider that never has an answer is asked on every access, and
    every access returns the German field. *)
Theorem description_unanswered_stays_german (get_language : nat -> value)
    (self : _Definition) (n : nat) :
  (forall i, i < n -> get_language i = None) ->
  fst (descriptions K get_language self n lang_init) = replicate n (GNFIELD_DESC_DE K)
  /\ get_language_calls (snd (descriptions K get_language self n lang_init)) = n
  /\ _gn_lang (snd (descriptions K get_language self n lang_init)) = None.
Proof.
  intros Hnone.
  rewrite (descriptions_unanswered get_language self n lang_init).
  - cbn [fst snd]. split; [|split].
    + clear -Hnone. cbn [get_language_calls lang_init Nat.add].
      assert (forall a, (forall i, i < a + n -> get_language i = None) ->
                map (fun i => _EleFieldNames.description_of K (get_language i)) (seq a n)
                = replicate n (GNFIELD_DESC_DE K)) as Hgen.
      { clear Hnone. induction n as [|n IH]; intros a Ha; [done|].
        cbn. rewrite Ha by lia. f_equal. apply IH. intros i Hi. apply Ha. lia. }
      by apply Hgen.
    + by destruct n.
    + destruct n as [|m]; [done|]. cbn. apply Hnone. lia.
  - done.
  - intros i Hi. cbn. by rewrite Hnone.
Qed.

End Accesses.

Lemma description_maps_each_code_witness :
  Forall2 (fun code name => _EleFieldNames.description_of sample_const (Some code) = name)
          ["custom"; "de"; "en"; "fr"; "it"]
          ["description_custom"; "description_de"; "description_en"; "description_fr";
           "description_it"].
Proof.
  apply (description_maps_each_code sample_const).
  apply (bool_decide_unpack (NoDup (language_codes sample_const))).
  vm_compute. exact I.
Defined.

Lemma description_asks_until_answered_witness :
  descriptions sample_const slow_provider
    {| _def := {| items := ∅; _solution := "ele" |} |} 4 lang_init
  = (["description_de"; "description_de"; "description_fr"; "description_fr"],
     {| _gn_lang := Some "fr"; get_language_calls := 3 |}).
Proof.
  apply (description_asks_until_answered sample_const slow_provider
           {| _def := {| items := ∅; _solution := "ele" |} |} 2 1).
  - intros [|[|i]] Hi; [reflexivity|reflexivity|lia].
  - reflexivity.
Defined.

Lemma description_unanswered_stays_german_witness :
  fst (descriptions sample_const silent_provider
         {| _def := {| items := ∅; _solution := "ele" |} |} 3 lang_init)
  = ["description_de"; "description_de"; "description_de"]
  /\ get_language_calls
       (snd (descriptions sample_const silent_provider
               {| _def := {| items := ∅; _solution := "ele" |} |} 3 lang_init)) = 3.
Proof.
  destruct (description_unanswered_stays_german sample_const silent_provider
              {| _def := {| items := ∅; _solution := "ele" |} |} 3) as (Hd & Hc & _).
  - intros i _. reflexivity.
  - split; [exact Hd|exact Hc].
Defined.

(** ** Relation records and their tuples *)

Section RelationTuples.

Lemma fix_args_spec (args : list value) :
  Relation._fix_args args = take 7 args ++ replicate (7 - length args) None.
Proof. do 8 (destruct args as [|? args]; [reflexivity|]). reflexivity. Qed.

(** X7: [_fix_args] yields 7 values whatever it is given: the first 7
    arguments, then [None] for the missing ones; on 7 values it changes
    nothing, so it changes nothing of what [__new__] passes to it. *)
Theorem Relation_fix_args_pads (args : list value) :
  length (Relation._fix_args args) = 7
  /\ Relation._fix_args args = take 7 args ++ replicate (7 - length args) None
  /\ Relation._fix_args (Relation._fix_args args) = Relation._fix_args args
  /\ Relation._fix_args (map (Relation.item args) (seq 0 Relation.argcount))
     = Relation._fix_args args.
Proof.
  split; [reflexivity|]. split; [apply fix_args_spec|]. split; reflexivity.
Qed.

(** X8: [Relation] called with at most 7 positional arguments builds the
    record whose tuple is the arguments followed by [None] up to 7, and
    its boolean conversion is [any] of the arguments; with more than 7
    arguments it raises [TypeError]. *)
Theorem Relation_new_pads_arguments (args : list value) :
  (length args <= 7 ->
   exists r,
     Relation.__new__ args = Ok r
     /\ Relation.to_tuple r = args ++ replicate (7 - length args) None
     /\ Relation.__nonzero__ r = existsb truthy args)
  /\ (7 < length args -> exists msg, Relation.__new__ args = Raise (TypeError msg)).
Proof.
  split.
  - intros Hlen. unfold Relation.__new__.
    rewrite bool_decide_eq_true_2 by done. eexists. split; [reflexivity|].
    do 8 (destruct args as [|? args];
          [split; [reflexivity|];
           unfold Relation.__nonzero__; cbn; by rewrite ?orb_false_r|]).
    cbn in Hlen. lia.
  - intros Hlen. unfold Relation.__new__.
    rewrite bool_decide_eq_false_2; [by eexists|]. unfold Relation.argcount. lia.
Qed.

Lemma Relation_new_pads_arguments_witness :
  (exists r,
      Relation.__new__ [Some "ELE_TRASSE"; None; Some "GLOBALID"] = Ok r
      /\ Relation.to_tuple r
         = [Some "ELE_TRASSE"; None; Some "GLOBALID"; None; None; None; None]
      /\ Relation.__nonzero__ r = true)
  /\ (exists msg,
        Relation.__new__ [None; None; None; None; None; None; None; Some "1:n"]
        = Raise (TypeError msg)).
Proof.
  split.
  - apply (Relation_new_pads_arguments [Some "ELE_TRASSE"; None; Some "GLOBALID"]).
    cbn. lia.
  - apply (Relation_new_pads_arguments
             [None; None; None; None; None; None; None; Some "1:n"]).
    cbn. lia.
Defined.


End RelationTuples.

(** ** The loaded lookup as a whole *)

Section LoadedLookup.

Context (K : Const).

Local Abbreviation the_filter relation_type :=
  {| where_field := GNFIELD_REL_TYPE K; where_value := relation_type |}.

Lemma load_from_cons_case (relation_type : string) (reverse : bool)
    (r : table_row) (rows : list table_row) (self : RelationTable) :
  RelationTable.load_from K relation_type reverse (r :: rows) self =
    if where_matches (the_filter relation_type) r
    then match RelationTable._process_row
                 (RelationTable.select (RelationTable.src_table K reverse)
                                       (RelationTable.fields K reverse) r) self with
         | Ok self' => RelationTable.load_from K relation_type reverse rows self'
         | Raise e => Raise e
         end
    else RelationTable.load_from K relation_type reverse rows self.
Proof.
  unfold RelationTable.load_from, RelationTable.scan_from. cbn [List.filter].
  by destruct (where_matches _ r).
Qed.

(** The entry of a key after a scan: what was there before it, or else
    the record of the first row of the relation type with that key. *)
Lemma load_from_lookup (relation_type : string) (reverse : bool)
    (rows : list table_row) (self self' : RelationTable) (k : string) :
  RelationTable.load_from K relation_type reverse rows self = Ok self' ->
  relations self' !! k =
    match relations self !! k with
    | Some v => Some v
    | None =>
        if String.eqb k "" then None
        else RelationTable.record_of K reverse
               <$> first_row K relation_type reverse k rows
    end.
Proof.
  revert self. induction rows as [|r rows IH]; intros self.
  - cbn. intros [= <-]. destruct (relations self !! k); [done|].
    by destruct (String.eqb k "").
  - rewrite load_from_cons_case. unfold first_row. cbn [find].
    fold (first_row K relation_type reverse k rows).
    destruct (where_matches _ r); cbn [andb]; [|apply IH].
    rewrite process_row_selected.
    destruct (RelationTable.key_of K reverse r) as [k0|] eqn:Hk0.
    + destruct (String.eqb_spec k0 "") as [->|Hne0].
      * intros Hload. rewrite (IH _ Hload).
        case_bool_decide as Hk; [|done]. injection Hk as <-.
        by destruct (relations self !! "").
      * case_bool_decide as Hin.
        -- intros Hload. rewrite (IH _ Hload). cbn [relations].
           case_bool_decide as Hk; [|done]. injection Hk as ->.
           destruct Hin as [v ->]. done.
        -- intros Hload. rewrite (IH _ Hload). cbn [relations].
           case_bool_decide as Hk.
           ++ injection Hk as ->. rewrite lookup_insert_eq.
              destruct (relations self !! k) as [v|] eqn:Hv.
              ** exfalso. apply Hin. by eexists.
              ** apply String.eqb_neq in Hne0. by rewrite Hne0.
           ++ rewrite lookup_insert_ne; [done|]. congruence.
    + intros Hload. rewrite (IH _ Hload). by rewrite bool_decide_eq_false_2.
Qed.

Lemma first_row_found (relation_type : string) (reverse : bool) (k : string)
    (rows : list table_row) (r : table_row) :
  first_row K relation_type reverse k rows = Some r ->
  In r rows /\ RelationTable.has_type K relation_type r
  /\ RelationTable.key_of K reverse r = Some k.
Proof.
  unfold first_row. intros Hfind. apply find_some in Hfind as [Hin Hr].
  apply andb_true_iff in Hr as [Hty Hk]. split; [done|]. split.
  - unfold where_matches in Hty. by apply bool_decide_eq_true_1 in Hty.
  - by apply bool_decide_eq_true_1 in Hk.
Qed.

(** The sizes after a scan: every row of the type with a key that is not
    blank adds either an entry or a warning. *)
Lemma load_from_count (relation_type : string) (reverse : bool)
    (rows : list table_row) (self self' : RelationTable) :
  RelationTable.load_from K relation_type reverse rows self = Ok self' ->
  size (relations self') + length (warned self')
  = size (relations self) + length (warned self)
    + length (keyed_rows K relation_type reverse rows).
Proof.
  revert self. induction rows as [|r rows IH]; intros self.
  - cbn. intros [= <-]. lia.
  - rewrite load_from_cons_case. unfold keyed_rows. cbn [List.filter].
    fold (keyed_rows K relation_type reverse rows).
    destruct (where_matches _ r); cbn [andb]; [|apply IH].
    rewrite process_row_selected.
    destruct (RelationTable.key_of K reverse r) as [k0|] eqn:Hk0; cbn [truthy];
      [|apply IH].
    destruct (String.eqb k0 ""); cbn [negb]; [apply IH|].
    case_bool_decide as Hin; intros Hload; rewrite (IH _ Hload); cbn [relations warned length].
    + rewrite length_app. cbn. lia.
    + rewrite map_size_insert_None; [lia|].
      destruct (relations self !! k0) eqn:Hv; [|done]. exfalso. apply Hin. by eexists.
Qed.

(** The warnings that were issued stay in front of the later ones. *)
Lemma load_from_warned (relation_type : string) (reverse : bool)
    (rows : list table_row) (self self' : RelationTable) :
  RelationTable.load_from K relation_type reverse rows self = Ok self' ->
  warned self `prefix_of` warned self'.
Proof.
  revert self. induction rows as [|r rows IH]; intros self.
  - cbn. by intros [= <-].
  - rewrite load_from_cons_case.
    destruct (where_matches _ r); [|apply IH].
    rewrite process_row_selected.
    destruct (RelationTable.key_of K reverse r) as [k0|]; [|apply IH].
    destruct (String.eqb k0 ""); [apply IH|].
    case_bool_decide; intros Hload; apply IH in Hload; cbn in Hload; [|done].
    etrans; [|exact Hload]. by apply prefix_app_r.
Qed.

End LoadedLookup.

Section LoadedTable.

Context (K : Const) (G : Gpf).

Lemma relation_init_log (workspace : pyobj) (w : Workspace) (relation_type : string)
    (reverse : bool) (log : list io_event) :
  as_Workspace workspace = Some w ->
  relation_type ∈ RelationTable.rel_types K ->
  snd (RelationTable.__init__ K G workspace relation_type reverse log)
  = log ++ [MakePath (GNTABLE_RELATION_DEF K);
            ReadTable (make_path w (GNTABLE_RELATION_DEF K))
                      (RelationTable.src_table K reverse)
                      (RelationTable.fields K reverse)].
Proof.
  intros Hw Hty.
  unfold RelationTable.__init__, io_bind, io_lift, io_make_path, io_except_RuntimeError,
    RelationTable.Lookup__init__, io_emit, io_ret, io_raise, pass_if_instance, pass_if.
  rewrite Hw. cbn. rewrite bool_decide_eq_true_2 by done. cbn.
  rewrite <- app_assoc. cbn [app].
  destruct (table_rows G _) as [e|rows]; [reflexivity|].
  fold (RelationTable.load K relation_type reverse rows).
  by destruct (load_total K relation_type reverse rows) as (self & ->).
Qed.

Lemma relation_init_unreadable (workspace : pyobj) (w : Workspace)
    (relation_type : string) (reverse : bool) (log : list io_event) (e : string) :
  as_Workspace workspace = Some w ->
  relation_type ∈ RelationTable.rel_types K ->
  table_rows G (make_path w (GNTABLE_RELATION_DEF K)) = inl e ->
  fst (RelationTable.__init__ K G workspace relation_type reverse log)
  = Raise (RuntimeError ("Failed to read GEONIS relation table '"
                         +:+ make_path w (GNTABLE_RELATION_DEF K) +:+ "': " +:+ e)).
Proof.
  intros Hw Hty Hrows.
  unfold RelationTable.__init__, io_bind, io_lift, io_make_path, io_except_RuntimeError,
    RelationTable.Lookup__init__, io_emit, io_ret, io_raise, pass_if_instance, pass_if.
  rewrite Hw. cbn. rewrite bool_decide_eq_true_2 by done. cbn. by rewrite Hrows.
Qed.

(** X10: the outcomes of [RelationTable.__init__]. Without a workspace it
    raises [ValueError] and does no I/O, whatever the relation type. With
    a workspace and one of the 8 types it builds the path of the relation
    table and reads it once, with the key field and the fields that
    [reverse] selects; a table that cannot be read gives a [RuntimeError]
    that quotes the path and the error, a table that can be read gives
    the lookup of its rows. *)
Theorem RelationTable_init_outcomes (workspace : pyobj) (relation_type : string)
    (reverse : bool) (log : list io_event) :
  (as_Workspace workspace = None ->
   RelationTable.__init__ K G workspace relation_type reverse log
   = (Raise (ValueError "'DefinitionTable' requires a Workspace object"), log))
  /\ (forall w : Workspace,
        as_Workspace workspace = Some w ->
        relation_type ∈ RelationTable.rel_types K ->
        let path := make_path w (GNTABLE_RELATION_DEF K) in
        snd (RelationTable.__init__ K G workspace relation_type reverse log)
        = log ++ [MakePath (GNTABLE_RELATION_DEF K);
                  ReadTable path (RelationTable.src_table K reverse)
                            (RelationTable.fields K reverse)]
        /\ (forall e, table_rows G path = inl e ->
                      fst (RelationTable.__init__ K G workspace relation_type reverse log)
                      = Raise (RuntimeError ("Failed to read GEONIS relation table '"
                                             +:+ path +:+ "': " +:+ e)))
        /\ (forall rows, table_rows G path = inr rows ->
                         exists self,
                           fst (RelationTable.__init__ K G workspace relation_type reverse log)
                           = Ok self
                           /\ RelationTable.load K relation_type reverse rows = Ok self)).
Proof.
  split.
  - intros Hw. unfold RelationTable.__init__, io_bind, io_lift, pass_if_instance.
    by rewrite Hw.
  - intros w Hw Hty path. split; [by apply relation_init_log|]. split.
    + intros e He. by apply relation_init_unreadable.
    + intros rows Hrows. rewrite (init_loads K G _ w _ _ _ rows) by done.
      destruct (load_total K relation_type reverse rows) as (self & Hself). eauto.
Qed.

(** X11: the lookup of a table that was read: a key is mapped, when it is not
    empty, to the record of the first row of the relation type whose
    formatted key it is, and to nothing when there is no such row. *)
Theorem RelationTable_lookup_is_first_row (workspace : pyobj) (w : Workspace)
    (relation_type : string) (reverse : bool) (log : list io_event)
    (rows : list table_row) :
  as_Workspace workspace = Some w ->
  relation_type ∈ RelationTable.rel_types K ->
  table_rows G (make_path w (GNTABLE_RELATION_DEF K)) = inr rows ->
  exists self,
    fst (RelationTable.__init__ K G workspace relation_type reverse log) = Ok self
    /\ forall k : string,
        relations self !! k
        = if String.eqb k "" then None
          else RelationTable.record_of K reverse
                 <$> first_row K relation_type reverse k rows.
Proof.
  intros Hw Hty Hrows. rewrite (init_loads K G _ w _ _ _ rows) by done.
  destruct (load_total K relation_type reverse rows) as (self & Hself).
  exists self. split; [done|]. intros k.
  by rewrite (load_from_lookup K relation_type reverse rows RelationTable.empty self k Hself).
Qed.

(** X12: every row of the relation type whose key is not blank is accounted
    for: it is an entry of the lookup or it has raised one warning, so
    the entries and the warnings together are as many as these rows. *)
Theorem RelationTable_counts_rows (workspace : pyobj) (w : Workspace)
    (relation_type : string) (reverse : bool) (log : list io_event)
    (rows : list table_row) :
  as_Workspace workspace = Some w ->
  relation_type ∈ RelationTable.rel_types K ->
  table_rows G (make_path w (GNTABLE_RELATION_DEF K)) = inr rows ->
  exists self,
    fst (RelationTable.__init__ K G workspace relation_type reverse log) = Ok self
    /\ size (relations self) + length (warned self)
       = length (keyed_rows K relation_type reverse rows)
    /\ length (keyed_rows K relation_type reverse rows) <= length rows.
Proof.
  intros Hw Hty Hrows. rewrite (init_loads K G _ w _ _ _ rows) by done.
  destruct (load_total K relation_type reverse rows) as (self & Hself).
  exists self. split; [done|]. split.
  - rewrite (load_from_count K relation_type reverse rows RelationTable.empty self Hself).
    cbn. by rewrite map_size_empty.
  - unfold keyed_rows. apply List.filter_length_le.
Qed.

(** X13: every entry of a lookup that was read is formatted: its key is not
    empty and is a text in upper case without blanks around it, each of
    the 7 fields of its record is null or such a text, its type is the
    requested relation type, formatted, and the record is true under the
    boolean conversion when that type is not blank. *)
Theorem RelationTable_entries_are_formatted (workspace : pyobj) (w : Workspace)
    (relation_type : string) (reverse : bool) (log : list io_event)
    (rows : list table_row) :
  as_Workspace workspace = Some w ->
  relation_type ∈ RelationTable.rel_types K ->
  table_rows G (make_path w (GNTABLE_RELATION_DEF K)) = inr rows ->
  exists self,
    fst (RelationTable.__init__ K G workspace relation_type reverse log) = Ok self
    /\ forall (k : string) (v : Relation),
        relations self !! k = Some v ->
        k <> "" /\ upper k = k /\ strip k = k
        /\ Forall (fun field => RelationTable.format_value field = field)
                  (Relation.to_tuple v)
        /\ relate_type v = Some (strip (upper relation_type))
        /\ (strip (upper relation_type) <> "" -> Relation.__nonzero__ v = true).
Proof.
  intros Hw Hty Hrows. rewrite (init_loads K G _ w _ _ _ rows) by done.
  destruct (load_total K relation_type reverse rows) as (self & Hself).
  exists self. split; [done|]. intros k v Hv.
  rewrite (load_from_lookup K relation_type reverse rows RelationTable.empty self k Hself)
    in Hv.
  cbn in Hv. rewrite lookup_empty in Hv.
  destruct (String.eqb_spec k "") as [|Hne]; [discriminate|].
  destruct (first_row K relation_type reverse k rows) as [r|] eqn:Hfirst; [|discriminate].
  injection Hv as <-.
  apply first_row_found in Hfirst as (_ & Hr & Hk).
  unfold RelationTable.key_of in Hk.
  destruct (r (RelationTable.src_table K reverse)) as [s|]; [|discriminate].
  injection Hk as <-.
  split; [done|]. split; [apply format_text_upper|]. split; [apply format_text_strip|].
  assert (relate_type (RelationTable.record_of K reverse r)
          = Some (strip (upper relation_type))) as Htype
    by by apply relate_type_of_row.
  split; [|split; [done|]].
  - unfold RelationTable.record_of, RelationTable.fields, Relation.to_tuple. cbn.
    repeat (apply Forall_cons; split; [apply format_value_idem|]). apply Forall_nil_2.
  - intros Hblank. apply nonzero_iff_truthy.
    exists (Some (strip (upper relation_type))). split.
    + rewrite <- Htype. unfold Relation.to_tuple. do 6 apply list_elem_of_further.
      apply list_elem_of_here.
    + apply truthy_Some. eauto.
Qed.


(** X15: rows that come later never change what is there: the lookup of a
    table is contained in the lookup of the table with more rows at its
    end, and its warnings are the first warnings of the longer table. *)
Theorem RelationTable_grows_with_rows (G' : Gpf) (workspace : pyobj) (w : Workspace)
    (relation_type : string) (reverse : bool) (log : list io_event)
    (rows more : list table_row) :
  as_Workspace workspace = Some w ->
  relation_type ∈ RelationTable.rel_types K ->
  table_rows G (make_path w (GNTABLE_RELATION_DEF K)) = inr rows ->
  table_rows G' (make_path w (GNTABLE_RELATION_DEF K)) = inr (rows ++ more) ->
  exists self self',
    fst (RelationTable.__init__ K G workspace relation_type reverse log) = Ok self
    /\ fst (RelationTable.__init__ K G' workspace relation_type reverse log) = Ok self'
    /\ relations self ⊆ relations self'
    /\ warned self `prefix_of` warned self'.
Proof.
  intros Hw Hty Hrows Hrows'.
  rewrite (init_loads K G _ w _ _ _ rows), (init_loads K G' _ w _ _ _ (rows ++ more)) by done.
  change (RelationTable.load K relation_type reverse) with
    (fun l => RelationTable.load_from K relation_type reverse l RelationTable.empty).
  cbn beta. rewrite load_from_app.
  destruct (load_from_total K relation_type reverse rows RelationTable.empty)
    as (self & -> & _).
  destruct (load_from_total K relation_type reverse more self)
    as (self' & Hself' & Hkeep & _).
  exists self, self'. split; [done|]. split; [done|]. split.
  - apply map_subseteq_spec. intros k v. apply Hkeep.
  - by eapply load_from_warned.
Qed.

End LoadedTable.

(** ** Reverse as the mirror of the table *)

Section Mirror.

Context (K : Const).

Lemma swap_columns :
  NoDup (relation_columns K) ->
  swap_column K (GNFIELD_REL_TABLE_SRC K) = GNFIELD_REL_TABLE_DST K
  /\ swap_column K (GNFIELD_REL_TABLE_DST K) = GNFIELD_REL_TABLE_SRC K
  /\ swap_column K (GNFIELD_REL_TABLE_REL K) = GNFIELD_REL_TABLE_REL K
  /\ swap_column K (GNFIELD_REL_KEYFIELD_SRC K) = GNFIELD_REL_KEYFIELD_DST K
  /\ swap_column K (GNFIELD_REL_KEYFIELD_DST K) = GNFIELD_REL_KEYFIELD_SRC K
  /\ swap_column K (GNFIELD_REL_RELFIELD_SRC K) = GNFIELD_REL_RELFIELD_DST K
  /\ swap_column K (GNFIELD_REL_RELFIELD_DST K) = GNFIELD_REL_RELFIELD_SRC K
  /\ swap_column K (GNFIELD_REL_TYPE K) = GNFIELD_REL_TYPE K.
Proof.
  intros H. unfold relation_columns in H.
  repeat match goal with
         | Hn : NoDup (_ :: _) |- _ =>
             destruct (proj1 (NoDup_cons _ _) Hn) as [? ?]; clear Hn
         end.
  repeat match goal with
         | Hn : _ ∉ _ :: _ |- _ =>
             destruct (proj1 (not_elem_of_cons _ _ _) Hn) as [? ?]; clear Hn
         end.
  unfold swap_column.
  repeat split; repeat (case_decide; [congruence|]); repeat case_decide; congruence.
Qed.

Lemma swap_column_involutive (column : string) :
  NoDup (relation_columns K) -> swap_column K (swap_column K column) = column.
Proof.
  intros Hnd. destruct (swap_columns Hnd) as (Hs & Hd & _ & Hks & Hkd & Hrs & Hrd & _).
  destruct (decide (column = GNFIELD_REL_TABLE_SRC K)) as [->|H1]; [by rewrite Hs|].
  destruct (decide (column = GNFIELD_REL_TABLE_DST K)) as [->|H2]; [by rewrite Hd|].
  destruct (decide (column = GNFIELD_REL_KEYFIELD_SRC K)) as [->|H3]; [by rewrite Hks|].
  destruct (decide (column = GNFIELD_REL_KEYFIELD_DST K)) as [->|H4]; [by rewrite Hkd|].
  destruct (decide (column = GNFIELD_REL_RELFIELD_SRC K)) as [->|H5]; [by rewrite Hrs|].
  destruct (decide (column = GNFIELD_REL_RELFIELD_DST K)) as [->|H6]; [by rewrite Hrd|].
  assert (swap_column K column = column) as Hid.
  { unfold swap_column. by rewrite !decide_False. }
  by rewrite !Hid.
Qed.

Lemma select_mirror (r : table_row) :
  NoDup (relation_columns K) ->
  RelationTable.select (RelationTable.src_table K false) (RelationTable.fields K false)
                       (mirror K r)
  = RelationTable.select (RelationTable.src_table K true) (RelationTable.fields K true) r.
Proof.
  intros Hnd. destruct (swap_columns Hnd) as (Hs & Hd & Hr & Hks & Hkd & Hrs & Hrd & Ht).
  unfold RelationTable.select, RelationTable.src_table, RelationTable.fields, mirror.
  cbn [map]. by rewrite Hs, Hd, Hr, Hks, Hkd, Hrs, Hrd, Ht.
Qed.

Lemma where_matches_mirror (relation_type : string) (r : table_row) :
  NoDup (relation_columns K) ->
  where_matches {| where_field := GNFIELD_REL_TYPE K; where_value := relation_type |}
                (mirror K r)
  = where_matches {| where_field := GNFIELD_REL_TYPE K; where_value := relation_type |} r.
Proof.
  intros Hnd. destruct (swap_columns Hnd) as (_ & _ & _ & _ & _ & _ & _ & Ht).
  unfold where_matches, mirror. cbn. by rewrite Ht.
Qed.

Lemma load_mirror (relation_type : string) (rows : list table_row) :
  NoDup (relation_columns K) ->
  RelationTable.load K relation_type false (map (mirror K) rows)
  = RelationTable.load K relation_type true rows.
Proof.
  intros Hnd. unfold RelationTable.load, RelationTable.scan, RelationTable.scan_from.
  f_equal. induction rows as [|r rows IH]; [done|].
  cbn [map List.filter]. rewrite where_matches_mirror by done.
  destruct (where_matches _ r); [|done]. cbn [map]. by rewrite select_mirror, IH.
Qed.

(** X16: when the eight columns of the relation table have different names,
    the lookup with [reverse=True] is the lookup with [reverse=False] of
    the mirrored table, in which every row has the cells of its source
    and destination columns exchanged: the same entries and the same
    warnings. Mirroring twice gives the table back. *)
Theorem RelationTable_reverse_is_mirror (G G' : Gpf) (workspace : pyobj) (w : Workspace)
    (relation_type : string) (log : list io_event) (rows : list table_row) :
  NoDup (relation_columns K) ->
  as_Workspace workspace = Some w ->
  relation_type ∈ RelationTable.rel_types K ->
  table_rows G (make_path w (GNTABLE_RELATION_DEF K)) = inr rows ->
  table_rows G' (make_path w (GNTABLE_RELATION_DEF K)) = inr (map (mirror K) rows) ->
  fst (RelationTable.__init__ K G workspace relation_type true log)
  = fst (RelationTable.__init__ K G' workspace relation_type false log)
  /\ forall (r : table_row) (column : string), mirror K (mirror K r) column = r column.
Proof.
  intros Hnd Hw Hty Hrows Hrows'. split.
  - rewrite (init_loads K G _ w _ _ _ rows),
      (init_loads K G' _ w _ _ _ (map (mirror K) rows)) by done.
    by rewrite load_mirror.
  - intros r column. unfold mirror. by rewrite swap_column_involutive.
Qed.

End Mirror.

(** ** Warnings and repeated keys *)

Section Warnings.

Context (K : Const).

Lemma load_from_silent (relation_type : string) (reverse : bool)
    (rows : list table_row) (self self' : RelationTable) :
  RelationTable.load_from K relation_type reverse rows self = Ok self' ->
  warned self' = warned self <->
  NoDup (map (RelationTable.key_of K reverse) (keyed_rows K relation_type reverse rows))
  /\ forall k : string,
      Some k ∈ map (RelationTable.key_of K reverse)
                   (keyed_rows K relation_type reverse rows) ->
      relations self !! k = None.
Proof.
  revert self. induction rows as [|r rows IH]; intros self.
  - cbn. intros [= <-]. split; [|done]. intros _. split; [constructor|].
    intros k Hk. by apply elem_of_nil in Hk.
  - rewrite load_from_cons_case. unfold keyed_rows. cbn [List.filter].
    fold (keyed_rows K relation_type reverse rows).
    destruct (where_matches _ r); cbn [andb]; [|apply IH].
    rewrite process_row_selected.
    destruct (RelationTable.key_of K reverse r) as [k0|] eqn:Hk0; cbn [truthy];
      [|apply IH].
    destruct (String.eqb k0 ""); cbn [negb]; [apply IH|].
    cbn [map]. rewrite Hk0.
    case_bool_decide as Hin; intros Hload.
    + split.
      * intros Hsame. exfalso.
        apply load_from_warned in Hload. cbn in Hload.
        apply prefix_length in Hload. rewrite Hsame, length_app in Hload. cbn in Hload. lia.
      * intros [_ Hfree]. exfalso. destruct Hin as [v Hv].
        rewrite Hfree in Hv; [done|]. apply list_elem_of_here.
    + rewrite (IH _ Hload). cbn [relations warned].
      assert (relations self !! k0 = None) as Hnone.
      { destruct (relations self !! k0) eqn:Hv; [|done]. exfalso. apply Hin. by eexists. }
      split.
      * intros [Hnd Hfree]. split.
        -- apply NoDup_cons. split; [|done]. intros Hk.
           specialize (Hfree k0 Hk). by rewrite lookup_insert_eq in Hfree.
        -- intros k Hk. apply elem_of_cons in Hk as [[= ->]|Hk]; [done|].
           specialize (Hfree k Hk).
           destruct (decide (k0 = k)) as [->|Hne]; [by rewrite lookup_insert_eq in Hfree|].
           by rewrite lookup_insert_ne in Hfree.
      * intros [Hnd Hfree]. destruct (proj1 (NoDup_cons _ _) Hnd) as [Hk0' Hnd'].
        split; [done|]. intros k Hk.
        destruct (decide (k0 = k)) as [->|Hne]; [done|].
        rewrite lookup_insert_ne by done. apply Hfree. by apply list_elem_of_further.
Qed.

(** X17: a table is read without a warning exactly when no two of its rows of
    the relation type with a key that is not blank have the same
    formatted key. *)
Theorem RelationTable_silent_iff_distinct_keys (G : Gpf) (workspace : pyobj)
    (w : Workspace) (relation_type : string) (reverse : bool) (log : list io_event)
    (rows : list table_row) :
  as_Workspace workspace = Some w ->
  relation_type ∈ RelationTable.rel_types K ->
  table_rows G (make_path w (GNTABLE_RELATION_DEF K)) = inr rows ->
  exists self,
    fst (RelationTable.__init__ K G workspace relation_type reverse log) = Ok self
    /\ (warned self = [] <->
        NoDup (map (RelationTable.key_of K reverse)
                   (keyed_rows K relation_type reverse rows))).
Proof.
  intros Hw Hty Hrows. rewrite (init_loads K G _ w _ _ _ rows) by done.
  destruct (load_total K relation_type reverse rows) as (self & Hself).
  exists self. split; [done|].
  rewrite (load_from_silent relation_type reverse rows RelationTable.empty self Hself).
  split; [by intros [Hnd _]|]. intros Hnd. split; [done|]. intros k _. apply lookup_empty.
Qed.

End Warnings.

(** *** The further properties on sample tables *)

Lemma sample_columns_distinct : NoDup (relation_columns sample_const).
Proof.
  apply (bool_decide_unpack (NoDup (relation_columns sample_const))).
  vm_compute. exact I.
Qed.


Lemma RelationTable_init_outcomes_witness :
  RelationTable.__init__ sample_const (sample_gpf ∅ [cable_route_row]) PyNone "relate" false []
  = (Raise (ValueError "'DefinitionTable' requires a Workspace object"), [])
  /\ snd (RelationTable.__init__ sample_const (sample_gpf ∅ [cable_route_row])
            (PyWorkspace sample_workspace) "relate" true [])
     = [MakePath "GNREL_DEFINITION";
        ReadTable "geonis.gdb/GNREL_DEFINITION" "TABLE_DST"
                  ["TABLE_SRC"; "TABLE_REL"; "KEYFIELD_DST"; "KEYFIELD_SRC";
                   "RELFIELD_DST"; "RELFIELD_SRC"; "REL_TYPE"]].
Proof.
  split.
  - apply (RelationTable_init_outcomes sample_const (sample_gpf ∅ [cable_route_row])
             PyNone "relate" false []).
    reflexivity.
  - destruct (RelationTable_init_outcomes sample_const (sample_gpf ∅ [cable_route_row])
                (PyWorkspace sample_workspace) "relate" true []) as [_ H].
    destruct (H sample_workspace eq_refl relate_is_a_type) as [Hlog _]. exact Hlog.
Defined.

Lemma RelationTable_lookup_is_first_row_witness :
  exists self,
    fst (RelationTable.__init__ sample_const
           (sample_gpf ∅ [label_row; blank_row; cable_route_row; cable_pipe_row])
           (PyWorkspace sample_workspace) "relate" false []) = Ok self
    /\ relations self !! "ELE_KABEL"
       = Some (RelationTable.record_of sample_const false cable_route_row)
    /\ relations self !! "ELE_ROHR" = None
    /\ relations self !! "" = None.
Proof.
  destruct (RelationTable_lookup_is_first_row sample_const
              (sample_gpf ∅ [label_row; blank_row; cable_route_row; cable_pipe_row])
              (PyWorkspace sample_workspace) sample_workspace "relate" false []
              [label_row; blank_row; cable_route_row; cable_pipe_row]
              eq_refl relate_is_a_type eq_refl) as (self & Hself & Hlookup).
  exists self. split; [exact Hself|].
  rewrite !Hlookup. split; [|split]; vm_compute; reflexivity.
Defined.

Lemma RelationTable_counts_rows_witness :
  exists self,
    fst (RelationTable.__init__ sample_const
           (sample_gpf ∅ [label_row; blank_row; cable_route_row; cable_pipe_row])
           (PyWorkspace sample_workspace) "relate" false []) = Ok self
    /\ size (relations self) + length (warned self) = 2.
Proof.
  destruct (RelationTable_counts_rows sample_const
              (sample_gpf ∅ [label_row; blank_row; cable_route_row; cable_pipe_row])
              (PyWorkspace sample_workspace) sample_workspace "relate" false []
              [label_row; blank_row; cable_route_row; cable_pipe_row]
              eq_refl relate_is_a_type eq_refl) as (self & Hself & Hcount & _).
  exists self. split; [exact Hself|exact Hcount].
Defined.

Lemma RelationTable_entries_are_formatted_witness :
  exists self,
    fst (RelationTable.__init__ sample_const
           (sample_gpf ∅ [cable_pipe_row])
           (PyWorkspace sample_workspace) "relate" false []) = Ok self
    /\ forall (k : string) (v : Relation),
        relations self !! k = Some v ->
        k <> "" /\ upper k = k /\ strip k = k /\ relate_type v = Some "RELATE".
Proof.
  destruct (RelationTable_entries_are_formatted sample_const
              (sample_gpf ∅ [cable_pipe_row])
              (PyWorkspace sample_workspace) sample_workspace "relate" false []
              [cable_pipe_row] eq_refl relate_is_a_type eq_refl) as (self & Hself & Hall).
  exists self. split; [exact Hself|]. intros k v Hv.
  destruct (Hall k v Hv) as (Hne & Hupper & Hstrip & _ & Htype & _).
  split; [exact Hne|]. split; [exact Hupper|]. split; [exact Hstrip|exact Htype].
Defined.


Lemma RelationTable_grows_with_rows_witness :
  exists self self',
    fst (RelationTable.__init__ sample_const (sample_gpf ∅ [cable_route_row])
           (PyWorkspace sample_workspace) "relate" false []) = Ok self
    /\ fst (RelationTable.__init__ sample_const
              (sample_gpf ∅ [cable_route_row; cable_pipe_row])
              (PyWorkspace sample_workspace) "relate" false []) = Ok self'
    /\ relations self ⊆ relations self'
    /\ warned self `prefix_of` warned self'.
Proof.
  apply (RelationTable_grows_with_rows sample_const (sample_gpf ∅ [cable_route_row])
           (sample_gpf ∅ [cable_route_row; cable_pipe_row])
           (PyWorkspace sample_workspace) sample_workspace "relate" false []
           [cable_route_row] [cable_pipe_row]
           eq_refl relate_is_a_type eq_refl eq_refl).
Defined.

Lemma RelationTable_reverse_is_mirror_witness :
  fst (RelationTable.__init__ sample_const (sample_gpf ∅ [cable_route_row; cable_pipe_row])
         (PyWorkspace sample_workspace) "relate" true [])
  = fst (RelationTable.__init__ sample_const
           (sample_gpf ∅ [mirror sample_const cable_route_row;
                          mirror sample_const cable_pipe_row])
           (PyWorkspace sample_workspace) "relate" false []).
Proof.
  apply (RelationTable_reverse_is_mirror sample_const
           (sample_gpf ∅ [cable_route_row; cable_pipe_row])
           (sample_gpf ∅ [mirror sample_const cable_route_row;
                          mirror sample_const cable_pipe_row])
           (PyWorkspace sample_workspace) sample_workspace "relate" []
           [cable_route_row; cable_pipe_row]
           sample_columns_distinct eq_refl relate_is_a_type eq_refl eq_refl).
Defined.

Lemma RelationTable_silent_iff_distinct_keys_witness :
  (exists self,
      fst (RelationTable.__init__ sample_const (sample_gpf ∅ [cable_route_row; blank_row])
             (PyWorkspace sample_workspace) "relate" false []) = Ok self
      /\ warned self = [])
  /\ (exists self,
        fst (RelationTable.__init__ sample_const
               (sample_gpf ∅ [cable_route_row; cable_pipe_row])
               (PyWorkspace sample_workspace) "relate" false []) = Ok self
        /\ warned self <> []).
Proof.
  split.
  - destruct (RelationTable_silent_iff_distinct_keys sample_const
                (sample_gpf ∅ [cable_route_row; blank_row])
                (PyWorkspace sample_workspace) sample_workspace "relate" false []
                [cable_route_row; blank_row] eq_refl relate_is_a_type eq_refl)
      as (self & Hself & Hiff).
    exists self. split; [exact Hself|]. apply Hiff.
    vm_compute. apply NoDup_singleton.
  - destruct (RelationTable_silent_iff_distinct_keys sample_const
                (sample_gpf ∅ [cable_route_row; cable_pipe_row])
                (PyWorkspace sample_workspace) sample_workspace "relate" false []
                [cable_route_row; cable_pipe_row] eq_refl relate_is_a_type eq_refl)
      as (self & Hself & Hiff).
    exists self. split; [exact Hself|]. intros Hnil. apply Hiff in Hnil.
    vm_compute in Hnil. apply NoDup_cons in Hnil as [Hin _]. apply Hin, list_elem_of_here.
Defined.
